(** * SerumMarket: a shallow embedding of the Serum DEX client wrapper

    The wrapper is a JavaScript class whose methods delegate to
    [@solana/web3.js] and [@project-serum/serum].  JavaScript values are
    embedded as the inductive [value]; a JavaScript number is an IEEE 754
    binary64 and is embedded as a primitive [float].  An [async] method is
    embedded by the completion its promise settles to, threaded through the
    state of the outside world (ledger node, SDK objects, console). *)

From Stdlib Require Import List String Ascii ZArith Lia Bool Floats DecimalString.
Import ListNotations.
Open Scope string_scope.

(** ** JavaScript values *)

Set Warnings "-register-all".

Inductive value : Type :=
| VUndefined
| VNull
| VBool (b : bool)
| VNum (x : float)
| VStr (s : string)
| VArr (xs : list value)
| VObj (props : list (string * value))
| VError (name message : string)
| VRef (h : N).

(** [VObj] is a plain object literal, its own properties in insertion order;
    [VError n m] is an instance of the built-in error class [n] carrying
    [m]; [VRef h] is an object owned by one of the two libraries
    (Connection, PublicKey, Account, BN, Market, Orderbook, Transaction,
    Buffer), opaque to the wrapper apart from the members listed in [Env]. *)

Inductive completion (A : Type) : Type :=
| Normal (a : A)
| Throw (e : value).
Arguments Normal {A} a.
Arguments Throw {A} e.

(** A TypeError raised by the engine.  The wording of its message differs
    between engines; only the class matters. *)
Definition TypeError (msg : string) : value := VError "TypeError" msg.

Definition is_nullish (v : value) : bool :=
  match v with
  | VUndefined | VNull => true
  | _ => false
  end.

Definition is_object (v : value) : bool :=
  match v with
  | VArr _ | VObj _ | VError _ _ | VRef _ => true
  | _ => false
  end.

(** ToBoolean, as used by [!x] and by [if (x)]. *)
Definition ToBoolean (v : value) : bool :=
  match v with
  | VUndefined | VNull => false
  | VBool b => b
  | VNum x => negb (PrimFloat.is_zero x || PrimFloat.is_nan x)
  | VStr s => negb (String.eqb s "")
  | VArr _ | VObj _ | VError _ _ | VRef _ => true
  end.

Fixpoint lookup (k : string) (props : list (string * value)) : value :=
  match props with
  | [] => VUndefined
  | (k', v) :: rest => if String.eqb k k' then v else lookup k rest
  end.

Definition num_of_nat (n : nat) : float :=
  PrimFloat.of_uint63 (Uint63.of_Z (Z.of_nat n)).

Definition index_key (i : nat) : string :=
  NilEmpty.string_of_uint (Nat.to_uint i).

Definition char_at (s : string) (i : nat) : value :=
  match String.get i s with
  | Some c => VStr (String c EmptyString)
  | None => VUndefined
  end.

(** ** The monad of asynchronous calls

    [W] is the state of everything outside the wrapper.  A call takes the
    world before it to the completion of its promise and the world after. *)

Section Monad.
Context {W : Type}.

Definition M (A : Type) : Type := W -> completion A * W.

Definition ret {A} (a : A) : M A := fun w => (Normal a, w).

Definition throw {A} (e : value) : M A := fun w => (Throw e, w).

Definition bind {A B} (m : M A) (k : A -> M B) : M B :=
  fun w =>
    match m w with
    | (Normal a, w') => k a w'
    | (Throw e, w') => (Throw e, w')
    end.

Definition lift {A} (c : completion A) : M A := fun w => (c, w).

(** [try { body } catch (err) { handler }] *)
Definition try_catch {A} (body : M A) (handler : value -> M A) : M A :=
  fun w =>
    match body w with
    | (Normal a, w') => (Normal a, w')
    | (Throw e, w') => handler e w'
    end.

(** [await Promise.all([p, q])]: both calls are started, [p] first, and
    joined; the join rejects when either promise rejects.  The two reads
    are independent, so the interleaving of their network traffic is not
    modelled: [q] runs on the world [p] leaves behind. *)
Definition Promise_all2 (p q : M value) : M (value * value) :=
  fun w =>
    let (r1, w1) := p w in
    let (r2, w2) := q w1 in
    match r1, r2 with
    | Normal a, Normal b => (Normal (a, b), w2)
    | Throw e, _ => (Throw e, w2)
    | Normal _, Throw e => (Throw e, w2)
    end.

Fixpoint mapM {A B} (f : A -> M B) (xs : list A) : M (list B) :=
  match xs with
  | [] => ret []
  | x :: rest =>
      bind (f x) (fun y => bind (mapM f rest) (fun ys => ret (y :: ys)))
  end.
End Monad.

Declare Scope js_scope.
Delimit Scope js_scope with js.
Notation "x <- c1 ;; c2" := (bind c1 (fun x => c2))
  (at level 61, c1 at next level, right associativity) : js_scope.
Notation "' pat <- c1 ;; c2" := (bind c1 (fun x => match x with pat => c2 end))
  (at level 61, pat pattern, c1 at next level, right associativity) : js_scope.
Open Scope js_scope.

(** ** The environment: JavaScript engine, web3.js and the Serum SDK

    Every member the wrapper calls on a library object is a field here, so a
    theorem quantified over [Env] holds for the real libraries and for any
    mock of them.  A method takes its receiver first. *)

Record Env {W : Type} : Type := {
  (* engine conversions the wrapper reaches only on ill-typed prices *)
  NumberToString : float -> string;
  StringToNumber : string -> float;
  OrdinaryToPrimitive : value -> completion value;
  console_error : value -> W -> W;
  (* data properties of a library object, [connection.commitment] *)
  ref_get : N -> string -> value;
  (* @solana/web3.js *)
  _rpcRequest : value -> value -> value -> M (W:=W) value;
  toBase58 : value -> M (W:=W) value;
  new_PublicKey : value -> M (W:=W) value;
  Buffer_from : value -> value -> M (W:=W) value;
  (* @project-serum/serum *)
  Market_getLayout : value -> M (W:=W) value;
  offsetOf : value -> value -> M (W:=W) value;
  Market_load : value -> value -> value -> value -> M (W:=W) value;
  loadBids : value -> value -> M (W:=W) value;
  loadAsks : value -> value -> M (W:=W) value;
  getL2 : value -> value -> M (W:=W) value;
  makePlaceOrderTransaction : value -> value -> value -> M (W:=W) value
}.
Arguments Env W : clear implicits.

(** The instance state of a [SerumMarket]: the three constructor arguments
    and [this.market], which is [undefined] until [initMarket] assigns it. *)
Record SerumMarket : Type := {
  connection : value;
  marketAddress : value;
  dexProgramKey : value;
  market : value
}.

Section Wrapper.
Context {W : Type} (env : Env W).

#[local] Abbreviation M := (M (W:=W)).

(** *** Property access *)

(** [v.k] for a property name [k]. *)
Definition GetV (v : value) (k : string) : completion value :=
  match v with
  | VUndefined | VNull =>
      Throw (TypeError ("Cannot read properties of undefined (reading '" ++ k ++ "')"))
  | VObj props => Normal (lookup k props)
  | VArr xs =>
      Normal (if String.eqb k "length" then VNum (num_of_nat (List.length xs))
              else VUndefined)
  | VStr s =>
      Normal (if String.eqb k "length" then VNum (num_of_nat (String.length s))
              else VUndefined)
  | VError n m =>
      Normal (if String.eqb k "message" then VStr m
              else if String.eqb k "name" then VStr n
              else VUndefined)
  | VBool _ | VNum _ => Normal VUndefined
  | VRef h => Normal (ref_get env h k)
  end.

(** [v[i]] for an array index [i]. *)
Definition GetIndex (v : value) (i : nat) : completion value :=
  match v with
  | VUndefined | VNull =>
      Throw (TypeError ("Cannot read properties of undefined (reading '" ++ index_key i ++ "')"))
  | VArr xs => Normal (nth i xs VUndefined)
  | VStr s => Normal (char_at s i)
  | VObj props => Normal (lookup (index_key i) props)
  | VError _ _ | VBool _ | VNum _ => Normal VUndefined
  | VRef h => Normal (ref_get env h (index_key i))
  end.

(** [if (v.length)]: a length is a non-negative integer, truthy exactly
    when it is not zero; on anything but an array or a string the property
    is read and converted as usual. *)
Definition length_truthy (v : value) : completion bool :=
  match v with
  | VArr xs => Normal (negb (Nat.eqb (List.length xs) 0))
  | VStr s => Normal (negb (Nat.eqb (String.length s) 0))
  | _ => match GetV v "length" with
         | Normal l => Normal (ToBoolean l)
         | Throw e => Throw e
         end
  end.

(** [recv.method(...)]: reading the method off [undefined] or [null]
    throws before the library is entered. *)
Definition invoke (recv : value) (method : string) (call : value -> M value)
  : M value :=
  if is_nullish recv
  then throw (TypeError ("Cannot read properties of undefined (reading '" ++ method ++ "')"))
  else call recv.

(** [v.map(f)].  Only arrays have [map]; the library objects of [Env]
    have none. *)
Definition array_map (v : value) (f : value -> M value) : M value :=
  match v with
  | VArr xs => ys <- mapM f xs ;; ret (VArr ys)
  | VUndefined | VNull =>
      throw (TypeError "Cannot read properties of undefined (reading 'map')")
  | _ => throw (TypeError "map is not a function")
  end.

(** The array pattern [[a, b]] of a parameter: the argument is iterated,
    missing elements are [undefined]. *)
Definition destructure2 (v : value) : completion (value * value) :=
  match v with
  | VArr xs => Normal (nth 0 xs VUndefined, nth 1 xs VUndefined)
  | VStr s => Normal (char_at s 0, char_at s 1)
  | _ => Throw (TypeError "is not iterable")
  end.

(** *** Numeric operators *)

Definition ToPrimitive (v : value) : completion value :=
  if is_object v then
    match OrdinaryToPrimitive env v with
    | Normal p =>
        if is_object p
        then Throw (TypeError "Cannot convert object to primitive value")
        else Normal p
    | Throw e => Throw e
    end
  else Normal v.

(** ToNumber and ToString of a primitive. *)
Definition ToNumber (p : value) : float :=
  match p with
  | VNull => PrimFloat.zero
  | VBool true => PrimFloat.one
  | VBool false => PrimFloat.zero
  | VNum x => x
  | VStr s => StringToNumber env s
  | _ => PrimFloat.nan
  end.

Definition ToString (p : value) : string :=
  match p with
  | VUndefined => "undefined"
  | VNull => "null"
  | VBool true => "true"
  | VBool false => "false"
  | VNum x => NumberToString env x
  | VStr s => s
  | _ => ""
  end.

Definition is_string (p : value) : bool :=
  match p with VStr _ => true | _ => false end.

Definition arith (op : float -> float -> float) (a b : value)
  : completion value :=
  match ToPrimitive a with
  | Throw e => Throw e
  | Normal pa =>
      match ToPrimitive b with
      | Throw e => Throw e
      | Normal pb => Normal (VNum (op (ToNumber pa) (ToNumber pb)))
      end
  end.

Definition js_sub : value -> value -> completion value := arith PrimFloat.sub.
Definition js_div : value -> value -> completion value := arith PrimFloat.div.

(** [a + b] concatenates when either operand is a string. *)
Definition js_add (a b : value) : completion value :=
  match ToPrimitive a with
  | Throw e => Throw e
  | Normal pa =>
      match ToPrimitive b with
      | Throw e => Throw e
      | Normal pb =>
          if is_string pa || is_string pb
          then Normal (VStr (ToString pa ++ ToString pb))
          else Normal (VNum (PrimFloat.add (ToNumber pa) (ToNumber pb)))
      end
  end.

(** [new Error(message)] *)
Definition new_Error (message : value) : completion value :=
  match message with
  | VUndefined => Normal (VError "Error" "")
  | _ => match ToPrimitive message with
         | Normal p => Normal (VError "Error" (ToString p))
         | Throw e => Throw e
         end
  end.
End Wrapper.


(** ** The class [SerumMarket] *)

Section SerumMarket.
Context {W : Type} (env : Env W).

#[local] Abbreviation M := (M (W:=W)).

(** [constructor(connection, marketAddress, dexProgramKey)] *)
Definition new_SerumMarket (connection marketAddress dexProgramKey : value)
  : SerumMarket :=
  {| connection := connection;
     marketAddress := marketAddress;
     dexProgramKey := dexProgramKey;
     market := VUndefined |}.

Definition set_market (this : SerumMarket) (m : value) : SerumMarket :=
  {| connection := connection this;
     marketAddress := marketAddress this;
     dexProgramKey := dexProgramKey this;
     market := m |}.

(** [getMarket()]: [Market.load(this.connection, this.marketAddress, {},
    this.dexProgramKey)] *)
Definition getMarket (this : SerumMarket) : M value :=
  Market_load env (connection this) (marketAddress this) (VObj [])
    (dexProgramKey this).

(** [initMarket()]: [this.market = await this.getMarket()].  The method
    returns nothing; the embedding returns the instance after the
    assignment. *)
Definition initMarket (this : SerumMarket) : M SerumMarket :=
  m <- getMarket this ;;
  ret (set_market this m).

(** The callback of [resp.result.map] in [getMarketByAssetKeys]:
    [({ pubkey, account: { data, executable, owner, lamports } }) => ...] *)
Definition decode_account (item : value) : M value :=
  pubkey <- lift (GetV env item "pubkey") ;;
  account <- lift (GetV env item "account") ;;
  data <- lift (GetV env account "data") ;;
  executable <- lift (GetV env account "executable") ;;
  owner <- lift (GetV env account "owner") ;;
  lamports <- lift (GetV env account "lamports") ;;
  publicKey <- new_PublicKey env pubkey ;;
  data0 <- lift (GetIndex env data 0) ;;
  buffer <- Buffer_from env data0 (VStr "base64") ;;
  ownerKey <- new_PublicKey env owner ;;
  ret (VObj [("publicKey", publicKey);
             ("accountInfo",
              VObj [("data", buffer);
                    ("executable", executable);
                    ("owner", ownerKey);
                    ("lamports", lamports)])]).

(** One entry of [filters]: the offset of a mint field in the market
    layout and the mint in base 58. *)
Definition memcmp_filter (dexProgramId : value) (field : string)
  (mint : value) : M value :=
  layout <- Market_getLayout env dexProgramId ;;
  offset <- invoke layout "offsetOf" (fun l => offsetOf env l (VStr field)) ;;
  bytes <- invoke mint "toBase58" (toBase58 env) ;;
  ret (VObj [("memcmp", VObj [("offset", offset); ("bytes", bytes)])]).

(** The request of [getMarketByAssetKeys]: the two filters, then
    [connection._rpcRequest('getProgramAccounts', [...])]. *)
Definition getProgramAccounts
  (connection baseMintAddress quoteMintAddress dexProgramId : value)
  : M value :=
  f1 <- memcmp_filter dexProgramId "baseMint" baseMintAddress ;;
  f2 <- memcmp_filter dexProgramId "quoteMint" quoteMintAddress ;;
  let filters := VArr [f1; f2] in
  invoke connection "_rpcRequest" (fun conn =>
    programId <- invoke dexProgramId "toBase58" (toBase58 env) ;;
    commitment <- lift (GetV env conn "commitment") ;;
    _rpcRequest env conn (VStr "getProgramAccounts")
      (VArr [programId;
             VObj [("commitment", commitment);
                   ("filters", filters);
                   ("encoding", VStr "base64")]])).

(** [static getMarketByAssetKeys(connection, baseMintAddress,
    quoteMintAddress, dexProgramId)] *)
Definition getMarketByAssetKeys
  (connection baseMintAddress quoteMintAddress dexProgramId : value)
  : M value :=
  resp <- getProgramAccounts connection baseMintAddress quoteMintAddress
            dexProgramId ;;
  error <- lift (GetV env resp "error") ;;
  if ToBoolean error then
    message <- lift (GetV env error "message") ;;
    err <- lift (new_Error env message) ;;
    throw err
  else
    result <- lift (GetV env resp "result") ;;
    array_map result decode_account.

(** [static findByAssets(connection, baseMintAddress, quoteMintAddress,
    dexProgramKey)]: [None] is the [null] result. *)
Definition findByAssets
  (connection baseMintAddress quoteMintAddress dexProgramKey : value)
  : M (option SerumMarket) :=
  availableMarkets <- getMarketByAssetKeys connection baseMintAddress
                        quoteMintAddress dexProgramKey ;;
  nonempty <- lift (length_truthy env availableMarkets) ;;
  if nonempty then
    first <- lift (GetIndex env availableMarkets 0) ;;
    publicKey <- lift (GetV env first "publicKey") ;;
    let market := new_SerumMarket connection publicKey dexProgramKey in
    market' <- initMarket market ;;
    ret (Some market')
  else ret None.

(** [getBidAskSpread()] *)
Definition getBidAskSpread (this : SerumMarket) : M value :=
  if negb (ToBoolean (market this)) then
    ret (VObj [("bid", VNull); ("ask", VNull)])
  else
    bidOrderbook <- invoke (market this) "loadBids"
                      (fun m => loadBids env m (connection this)) ;;
    askOrderbook <- invoke (market this) "loadAsks"
                      (fun m => loadAsks env m (connection this)) ;;
    bidLevels <- invoke bidOrderbook "getL2"
                   (fun ob => getL2 env ob (VNum PrimFloat.one)) ;;
    highestbid <- lift (GetIndex env bidLevels 0) ;;
    askLevels <- invoke askOrderbook "getL2"
                   (fun ob => getL2 env ob (VNum PrimFloat.one)) ;;
    lowestAsk <- lift (GetIndex env askLevels 0) ;;
    bid <- lift (GetIndex env highestbid 0) ;;
    ask <- lift (GetIndex env lowestAsk 0) ;;
    ret (VObj [("bid", bid); ("ask", ask)]).

(** [([price, size]) => ({ price, size })] *)
Definition level_object (level : value) : M value :=
  '(price, size) <- lift (destructure2 level) ;;
  ret (VObj [("price", price); ("size", size)]).

(** [!orderbook ? [] : orderbook.getL2(depth).map(...)] *)
Definition side_levels (orderbook depth : value) : M value :=
  if negb (ToBoolean orderbook) then ret (VArr [])
  else
    levels <- invoke orderbook "getL2" (fun ob => getL2 env ob depth) ;;
    array_map levels level_object.

Definition empty_orderbook : value :=
  VObj [("bids", VArr []); ("asks", VArr [])].

(** The parameter default [depth = 20]. *)
Definition default_depth (depth : value) : value :=
  match depth with
  | VUndefined => VNum 20%float
  | _ => depth
  end.

(** The [try] block of [getOrderbook]. *)
Definition getOrderbook_try (this : SerumMarket) (depth : value) : M value :=
  '(bidOrderbook, askOrderbook) <-
     (if is_nullish (market this)
      then throw (TypeError "Cannot read properties of undefined (reading 'loadBids')")
      else Promise_all2 (loadBids env (market this) (connection this))
                        (loadAsks env (market this) (connection this))) ;;
  bids <- side_levels bidOrderbook depth ;;
  asks <- side_levels askOrderbook depth ;;
  ret (VObj [("bids", bids); ("asks", asks)]).

(** [getOrderbook(depth = 20)] *)
Definition getOrderbook (this : SerumMarket) (depth : value) : M value :=
  try_catch (getOrderbook_try this (default_depth depth))
    (fun err w => (Normal empty_orderbook, console_error env err w)).

(** [getPrice()] *)
Definition getPrice (this : SerumMarket) : M value :=
  spread <- getBidAskSpread this ;;
  bid <- lift (GetV env spread "bid") ;;
  ask <- lift (GetV env spread "ask") ;;
  diff <- lift (js_sub env ask bid) ;;
  half <- lift (js_div env diff (VNum 2%float)) ;;
  lift (js_add env half bid).

(** The object literal handed to [makePlaceOrderTransaction]. *)
Definition order_params
  (owner payer side price size orderType
   clientId openOrdersAddressKey openOrdersAccount feeDiscountPubkey : value)
  : value :=
  VObj [("owner", owner);
        ("payer", payer);
        ("side", side);
        ("price", price);
        ("size", size);
        ("orderType", orderType);
        ("clientId", clientId);
        ("openOrdersAddressKey", openOrdersAddressKey);
        ("openOrdersAccount", openOrdersAccount);
        ("feeDiscountPubkey", feeDiscountPubkey)].

(** [createPlaceOrderTx({ connection, owner, payer, side, price, size,
    orderType, opts = {} })] *)
Definition createPlaceOrderTx (this : SerumMarket) (arg : value) : M value :=
  connection <- lift (GetV env arg "connection") ;;
  owner <- lift (GetV env arg "owner") ;;
  payer <- lift (GetV env arg "payer") ;;
  side <- lift (GetV env arg "side") ;;
  price <- lift (GetV env arg "price") ;;
  size <- lift (GetV env arg "size") ;;
  orderType <- lift (GetV env arg "orderType") ;;
  opts0 <- lift (GetV env arg "opts") ;;
  let opts := match opts0 with VUndefined => VObj [] | _ => opts0 end in
  clientId <- lift (GetV env opts "clientId") ;;
  openOrdersAddressKey <- lift (GetV env opts "openOrdersAddressKey") ;;
  openOrdersAccount <- lift (GetV env opts "openOrdersAccount") ;;
  feeDiscountPubkey <- lift (GetV env opts "feeDiscountPubkey") ;;
  invoke (market this) "makePlaceOrderTransaction" (fun m =>
    makePlaceOrderTransaction env m connection
      (order_params owner payer side price size orderType
         clientId openOrdersAddressKey openOrdersAccount feeDiscountPubkey)).
End SerumMarket.


(** ** A mock of the libraries

    The world of the mock is the list of calls made so far, oldest first.
    What each library call settles to is fixed by a [Mock]. *)

Record Mock : Type := {
  mock_response : completion value;
  mock_market : completion value;
  mock_bids : completion value;
  mock_asks : completion value;
  mock_levels : value -> value -> completion value;
  mock_transaction : value -> value -> completion value
}.

Definition call (name : string) (args : list value) (r : completion value)
  : M (W:=list value) value :=
  fun w => (r, (w ++ [VArr (VStr name :: args)])%list).

Definition mock_env (m : Mock) : Env (list value) :=
  {| NumberToString := fun _ => "";
     StringToNumber := fun _ => PrimFloat.nan;
     OrdinaryToPrimitive := fun _ => Normal (VStr "[object Object]");
     console_error := fun err w => (w ++ [VArr [VStr "console.error"; err]])%list;
     ref_get := fun _ _ => VUndefined;
     _rpcRequest := fun conn method args =>
       call "_rpcRequest" [conn; method; args] (mock_response m);
     toBase58 := fun key => call "toBase58" [key] (Normal (VStr "base58"));
     new_PublicKey := fun key =>
       call "PublicKey" [key] (Normal (VObj [("PublicKey", key)]));
     Buffer_from := fun data encoding =>
       call "Buffer.from" [data; encoding] (Normal (VObj [("Buffer", data)]));
     Market_getLayout := fun programId =>
       call "Market.getLayout" [programId] (Normal (VRef 1));
     offsetOf := fun layout field =>
       call "offsetOf" [layout; field] (Normal (VNum 5%float));
     Market_load := fun conn address options programId =>
       call "Market.load" [conn; address; options; programId] (mock_market m);
     loadBids := fun market conn => call "loadBids" [market; conn] (mock_bids m);
     loadAsks := fun market conn => call "loadAsks" [market; conn] (mock_asks m);
     getL2 := fun orderbook depth =>
       call "getL2" [orderbook; depth] (mock_levels m orderbook depth);
     makePlaceOrderTransaction := fun market conn params =>
       call "makePlaceOrderTransaction" [market; conn; params]
         (mock_transaction m conn params) |}.

(** Library objects of the mock. *)
Definition the_connection : value := VRef 2.
Definition the_program : value := VRef 3.
Definition the_market : value := VRef 4.
Definition the_bids : value := VRef 10.
Definition the_asks : value := VRef 11.

(** An L2 level as the SDK returns it: [[price, size, priceLots, sizeLots]]. *)
Definition level (price size : float) : value :=
  VArr [VNum price; VNum size; VRef 20; VRef 21].

(** The number of levels a depth asks for. *)
Definition levels_requested (depth : value) : nat :=
  match depth with
  | VNum x =>
      match Prim2SF x with
      | S754_finite false m e =>
          Z.to_nat (if (0 <=? e)%Z then Zpos m * 2 ^ e else Zpos m / 2 ^ (- e))
      | _ => 0
      end
  | _ => 0
  end.

(** A market with the given aggregated levels on each side: [getL2(depth)]
    is the first [depth] of them. *)
Definition book_levels (bids asks : list value) (orderbook depth : value)
  : completion value :=
  match orderbook with
  | VRef 10 => Normal (VArr (firstn (levels_requested depth) bids))
  | VRef 11 => Normal (VArr (firstn (levels_requested depth) asks))
  | _ => Throw (TypeError "getL2 is not a function")
  end.

Definition live_market (bids asks : list value) : Mock :=
  {| mock_response := Normal (VObj [("result", VArr [])]);
     mock_market := Normal the_market;
     mock_bids := Normal the_bids;
     mock_asks := Normal the_asks;
     mock_levels := book_levels bids asks;
     mock_transaction := fun conn params =>
       Normal (VObj [("transaction", VRef 30); ("signers", VArr [])]) |}.

(** A client whose [initMarket] has completed against the mock. *)
Definition ready_client : SerumMarket :=
  set_market (new_SerumMarket the_connection (VRef 5) the_program) the_market.

(** A node that cannot be reached: both loads reject. *)
Definition unreachable_node : Mock :=
  {| mock_response := Throw (VStr "fetch failed");
     mock_market := Normal the_market;
     mock_bids := Throw (VStr "socket hang up");
     mock_asks := Throw (VObj [("code", VNum 503%float)]);
     mock_levels := book_levels [] [];
     mock_transaction := fun _ _ => Throw (VStr "fetch failed") |}.

(** A node that answers the account scan with an error. *)
Definition failing_scan : Mock :=
  {| mock_response := Normal (VObj [("error", VObj [("message", VStr "x")])]);
     mock_market := Normal the_market;
     mock_bids := Normal the_bids;
     mock_asks := Normal the_asks;
     mock_levels := book_levels [] [];
     mock_transaction := fun _ _ => Normal VUndefined |}.

(** An account of the scan's result, as the node encodes it. *)
Definition scanned_account (pubkey : string) : value :=
  VObj [("pubkey", VStr pubkey);
        ("account",
         VObj [("data", VArr [VStr "AAAA"; VStr "base64"]);
               ("executable", VBool false);
               ("owner", VStr "DEX");
               ("lamports", VNum 1000%float)])].

(** A node on which the scan finds the given accounts. *)
Definition scan_finds (accounts : list value) : Mock :=
  {| mock_response := Normal (VObj [("result", VArr accounts)]);
     mock_market := Normal the_market;
     mock_bids := Normal the_bids;
     mock_asks := Normal the_asks;
     mock_levels := book_levels [] [];
     mock_transaction := fun _ _ => Normal VUndefined |}.

(** ** The demo script and the build configuration *)

(** What the demo script uses beyond [Env]: the [Connection] constructor
    and [console.log]. *)
Record ScriptEnv {W : Type} : Type := {
  lib : Env W;
  new_Connection : value -> M (W:=W) value;
  console_log : list value -> W -> W
}.
Arguments ScriptEnv W : clear implicits.

(** [scripts/testSerumOrderbook.js]: the module body, then the body of
    its [async] function.  A [Throw] is an exception nobody catches. *)
Definition testSerumOrderbook {W : Type} (env : ScriptEnv W)
  : M (W:=W) unit :=
  connection <- new_Connection env (VStr "https://devnet.solana.com") ;;
  dexProgramKey <- new_PublicKey (lib env)
                     (VStr "DESVgJVGajEgKGXhb6XmqDHGz3VjdgP7rEVESBgxmroY") ;;
  marketKey <- new_PublicKey (lib env)
                 (VStr "CDhPvJY41fchNH4G4dB4VrF6G8EcTZnSBDDKWP8NLgvQ") ;;
  let market0 := new_SerumMarket connection marketKey dexProgramKey in
  client <- initMarket (lib env) market0 ;;
  bidOrderbook <- invoke (market client) "loadBids"
                    (fun m => loadBids (lib env) m connection) ;;
  askOrderbook <- invoke (market client) "loadAsks"
                    (fun m => loadAsks (lib env) m connection) ;;
  bidLevels <- invoke bidOrderbook "getL2"
                 (fun ob => getL2 (lib env) ob (VNum 1%float)) ;;
  askLevels <- invoke askOrderbook "getL2"
                 (fun ob => getL2 (lib env) ob (VNum 1%float)) ;;
  fun w =>
    (Normal tt,
     console_log env [VStr "*** OrderBooks"; bidLevels; askLevels] w).

(** [webpack.config.js]: the two settings computed from
    [process.env.NODE_ENV], which is a string or [undefined]. *)
Module WebpackConfig.

(** [v === 'literal'] *)
Definition strictly_equals (v : value) (literal : string) : bool :=
  match v with
  | VStr s => String.eqb s literal
  | _ => false
  end.

Definition watch (NODE_ENV : value) : bool :=
  negb (strictly_equals NODE_ENV "production").

Definition mode (NODE_ENV : value) : string :=
  if strictly_equals NODE_ENV "production" then "production"
  else "development".

End WebpackConfig.

(** The mock of the script's environment: the connection it constructs is
    [the_connection]. *)
Definition mock_script (m : Mock) : ScriptEnv (list value) :=
  {| lib := mock_env m;
     new_Connection := fun url => call "Connection" [url] (Normal the_connection);
     console_log := fun args w =>
       (w ++ [VArr (VStr "console.log" :: args)])%list |}.

(** A node that answers the account scan with the given response. *)
Definition node_answers (response : value) : Mock :=
  {| mock_response := Normal response;
     mock_market := Normal the_market;
     mock_bids := Normal the_bids;
     mock_asks := Normal the_asks;
     mock_levels := book_levels [] [];
     mock_transaction := fun _ _ => Normal VUndefined |}.

(** A market whose bid side resolves to [null]. *)
Definition no_bid_book (asks : list value) : Mock :=
  {| mock_response := Normal (VObj [("result", VArr [])]);
     mock_market := Normal the_market;
     mock_bids := Normal VNull;
     mock_asks := Normal the_asks;
     mock_levels := book_levels [] asks;
     mock_transaction := fun _ _ => Normal VUndefined |}.

(** A market whose asks cannot be loaded. *)
Definition asks_unavailable (bids : list value) : Mock :=
  {| mock_response := Normal (VObj [("result", VArr [])]);
     mock_market := Normal the_market;
     mock_bids := Normal the_bids;
     mock_asks := Throw (VStr "429 Too Many Requests");
     mock_levels := book_levels bids [];
     mock_transaction := fun _ _ => Normal VUndefined |}.

(** A node on which the market account cannot be loaded. *)
Definition market_unavailable : Mock :=
  {| mock_response := Normal (VObj [("result", VArr [scanned_account "A"])]);
     mock_market := Throw (VError "Error" "Address not owned by program");
     mock_bids := Normal the_bids;
     mock_asks := Normal the_asks;
     mock_levels := book_levels [] [];
     mock_transaction := fun _ _ => Normal VUndefined |}.

(** ** Predicates used by the statements *)

(** A failure of one of the four library reads behind [getOrderbook]:
    either load, or the level extraction of either side.  Each premise is
    the call as [getOrderbook] makes it, on the world it makes it on. *)
Inductive read_failure {W : Type} (env : Env W) (this : SerumMarket)
  (depth : value) (w : W) : Prop :=
| bids_load_fails (e : value) (w1 : W) :
    loadBids env (market this) (connection this) w = (Throw e, w1) ->
    read_failure env this depth w
| asks_load_fails (r : completion value) (e : value) (w1 w2 : W) :
    loadBids env (market this) (connection this) w = (r, w1) ->
    loadAsks env (market this) (connection this) w1 = (Throw e, w2) ->
    read_failure env this depth w
| bids_extraction_fails (bidOrderbook askOrderbook e : value) (w1 w2 w3 : W) :
    loadBids env (market this) (connection this) w = (Normal bidOrderbook, w1) ->
    loadAsks env (market this) (connection this) w1 = (Normal askOrderbook, w2) ->
    ToBoolean bidOrderbook = true ->
    getL2 env bidOrderbook (default_depth depth) w2 = (Throw e, w3) ->
    read_failure env this depth w
| asks_extraction_fails (bidOrderbook askOrderbook bids e : value)
    (w1 w2 w3 w4 : W) :
    loadBids env (market this) (connection this) w = (Normal bidOrderbook, w1) ->
    loadAsks env (market this) (connection this) w1 = (Normal askOrderbook, w2) ->
    side_levels env bidOrderbook (default_depth depth) w2 = (Normal bids, w3) ->
    ToBoolean askOrderbook = true ->
    getL2 env askOrderbook (default_depth depth) w3 = (Throw e, w4) ->
    read_failure env this depth w.

(** The level extraction never returns more levels than it is asked for:
    at the depth [depth], which stands for the count [n], every array
    [getL2] returns has at most [n] entries. *)
Definition extraction_bounded {W : Type} (env : Env W) (depth : value)
  (n : nat) : Prop :=
  forall (orderbook : value) (w : W) (levels : list value) (w' : W),
    getL2 env orderbook depth w = (Normal (VArr levels), w') ->
    List.length levels <= n.

(** A spread side that is [null] or a number. *)
Definition null_or_number (v : value) : bool :=
  match v with
  | VNull | VNum _ => true
  | _ => false
  end.

(** An entry of the array [getMarketByAssetKeys] returns. *)
Definition is_match (v : value) : Prop :=
  exists publicKey accountInfo,
    v = VObj [("publicKey", publicKey); ("accountInfo", accountInfo)].

(** The caller's argument object has no property [k]. *)
Definition omits (k : string) (props : list (string * value)) : Prop :=
  forall v, ~ In (k, v) props.

(** The order parameters read off the caller's argument object and off its
    options bundle. *)
Definition params_of (props opts : list (string * value)) : value :=
  order_params (lookup "owner" props) (lookup "payer" props)
    (lookup "side" props) (lookup "price" props) (lookup "size" props)
    (lookup "orderType" props)
    (lookup "clientId" opts) (lookup "openOrdersAddressKey" opts)
    (lookup "openOrdersAccount" opts) (lookup "feeDiscountPubkey" opts).

(** A rejection of one of the two loads of [getBidAskSpread], with the
    world it leaves: the asks are loaded only after the bids have been. *)
Inductive load_failure {W : Type} (env : Env W) (this : SerumMarket) (w : W)
  (e : value) (w' : W) : Prop :=
| spread_bids_fail :
    loadBids env (market this) (connection this) w = (Throw e, w') ->
    load_failure env this w e w'
| spread_asks_fail (bidOrderbook : value) (w1 : W) :
    loadBids env (market this) (connection this) w = (Normal bidOrderbook, w1) ->
    loadAsks env (market this) (connection this) w1 = (Throw e, w') ->
    load_failure env this w e w'.

(** The entry [getOrderbook] makes of a level [[price, size, ...]]. *)
Definition level_entry (row : list value) : value :=
  VObj [("price", nth 0 row VUndefined); ("size", nth 1 row VUndefined)].

(** What an array pattern can destructure. *)
Definition iterable (v : value) : bool :=
  match v with
  | VArr _ | VStr _ => true
  | _ => false
  end.

(** An array all of whose entries can be destructured. *)
Definition levels_ok (v : value) : bool :=
  match v with
  | VArr xs => forallb iterable xs
  | _ => false
  end.

Definition is_array (v : value) : bool :=
  match v with
  | VArr _ => true
  | _ => false
  end.

(** [entry] is what [getMarketByAssetKeys] makes of the scanned account
    [item]: keys and buffer built by the library from the account's own
    fields, [executable] and [lamports] copied. *)
Definition decoded {W : Type} (env : Env W) (item entry : value) : Prop :=
  exists pubkey account data executable owner lamports data0
         publicKey buffer ownerKey (w1 w1' w2 w2' w3 w3' : W),
    GetV env item "pubkey" = Normal pubkey
    /\ GetV env item "account" = Normal account
    /\ GetV env account "data" = Normal data
    /\ GetV env account "executable" = Normal executable
    /\ GetV env account "owner" = Normal owner
    /\ GetV env account "lamports" = Normal lamports
    /\ GetIndex env data 0 = Normal data0
    /\ new_PublicKey env pubkey w1 = (Normal publicKey, w1')
    /\ Buffer_from env data0 (VStr "base64") w2 = (Normal buffer, w2')
    /\ new_PublicKey env owner w3 = (Normal ownerKey, w3')
    /\ entry
       = VObj [("publicKey", publicKey);
               ("accountInfo",
                VObj [("data", buffer);
                      ("executable", executable);
                      ("owner", ownerKey);
                      ("lamports", lamports)])].

(** The properties [createPlaceOrderTx] reads off its argument. *)
Definition argument_fields : list string :=
  ["connection"; "owner"; "payer"; "side"; "price"; "size"; "orderType";
   "opts"].

(** A finite number other than zero. *)
Definition finite_nonzero (x : float) : Prop :=
  exists s m e, Prim2SF x = S754_finite s m e.

(** The second argument of the [getProgramAccounts] request. *)
Definition scan_options (commitment offset1 bytes1 offset2 bytes2 : value)
  : value :=
  VObj [("commitment", commitment);
        ("filters",
         VArr [VObj [("memcmp", VObj [("offset", offset1); ("bytes", bytes1)])];
               VObj [("memcmp", VObj [("offset", offset2); ("bytes", bytes2)])]]);
        ("encoding", VStr "base64")].

(** ** Helper lemmas *)

Section Facts.
Context {W : Type} (env : Env W).

Lemma mapM_length {A B : Type} (f : A -> M (W:=W) B) (xs : list A) :
  forall (w : W) (ys : list B) (w' : W),
    mapM f xs w = (Normal ys, w') -> List.length ys = List.length xs.
Proof.
  induction xs as [|x rest IH]; intros w ys w' H; simpl in H.
  - unfold ret in H. inversion H. reflexivity.
  - unfold bind in H. destruct (f x w) as [[y|e] w1]; [|discriminate].
    destruct (mapM f rest w1) as [[ys'|e] w2] eqn:E; [|discriminate].
    unfold ret in H. inversion H; subst. simpl. f_equal. eapply IH; eauto.
Qed.

Lemma array_map_length (v : value) (f : value -> M (W:=W) value) :
  forall (w : W) (r : value) (w' : W),
    array_map v f w = (Normal r, w') ->
    exists xs ys, v = VArr xs /\ r = VArr ys /\ List.length ys = List.length xs.
Proof.
  intros w r w' H. destruct v; simpl in H; try discriminate.
  unfold bind in H. destruct (mapM f xs w) as [[ys|e] w1] eqn:E; [|discriminate].
  unfold ret in H. inversion H; subst.
  exists xs, ys. repeat split. eapply mapM_length; eauto.
Qed.

Lemma invoke_not_nullish (recv : value) (method : string)
  (call : value -> M (W:=W) value) :
  is_nullish recv = false -> invoke recv method call = call recv.
Proof. intros H. unfold invoke. rewrite H. reflexivity. Qed.

Lemma truthy_not_nullish (v : value) :
  ToBoolean v = true -> is_nullish v = false.
Proof. destruct v; simpl; congruence. Qed.

Lemma side_levels_is_array (orderbook depth : value) :
  forall (w : W) (r : value) (w' : W),
    side_levels env orderbook depth w = (Normal r, w') ->
    exists ys, r = VArr ys.
Proof.
  intros w r w' H. unfold side_levels in H.
  destruct (ToBoolean orderbook) eqn:T; simpl in H.
  - rewrite invoke_not_nullish in H by (apply truthy_not_nullish; exact T).
    unfold bind in H.
    destruct (getL2 env orderbook depth w) as [[levels|e] w1]; [|discriminate].
    apply array_map_length in H. destruct H as (xs & ys & _ & -> & _).
    eexists; reflexivity.
  - unfold ret in H. inversion H. eexists; reflexivity.
Qed.

Lemma side_levels_bounded (orderbook depth : value) (n : nat) :
  extraction_bounded env depth n ->
  forall (w : W) (ys : list value) (w' : W),
    side_levels env orderbook depth w = (Normal (VArr ys), w') ->
    List.length ys <= n.
Proof.
  intros Hb w ys w' H. unfold side_levels in H.
  destruct (ToBoolean orderbook) eqn:T; simpl in H.
  - rewrite invoke_not_nullish in H by (apply truthy_not_nullish; exact T).
    unfold bind in H.
    destruct (getL2 env orderbook depth w) as [[levels|e] w1] eqn:E; [|discriminate].
    apply array_map_length in H. destruct H as (xs & ys' & -> & Hy & Hlen).
    inversion Hy; subst. rewrite Hlen. eapply Hb; eauto.
  - unfold ret in H. inversion H. simpl. lia.
Qed.

Lemma side_levels_extraction_fails (orderbook depth e : value) (w w' : W) :
  ToBoolean orderbook = true ->
  getL2 env orderbook depth w = (Throw e, w') ->
  side_levels env orderbook depth w = (Throw e, w').
Proof.
  intros T H. unfold side_levels. rewrite T. simpl.
  rewrite invoke_not_nullish by (apply truthy_not_nullish; exact T).
  unfold bind. rewrite H. reflexivity.
Qed.

(** Whatever the [try] block does, [getOrderbook] completes normally:
    with the block's value, or with the empty book after logging. *)
Lemma getOrderbook_cases (this : SerumMarket) (depth : value) (w : W) :
  (exists v w', getOrderbook_try env this (default_depth depth) w = (Normal v, w')
                /\ getOrderbook env this depth w = (Normal v, w'))
  \/ (exists e w', getOrderbook_try env this (default_depth depth) w = (Throw e, w')
                   /\ getOrderbook env this depth w
                      = (Normal empty_orderbook, console_error env e w')).
Proof.
  unfold getOrderbook, try_catch.
  destruct (getOrderbook_try env this (default_depth depth) w) as [[v|e] w'].
  - left. eauto.
  - right. eauto.
Qed.

Lemma getOrderbook_never_throws (this : SerumMarket) (depth : value) (w : W) :
  exists v w', getOrderbook env this depth w = (Normal v, w').
Proof.
  destruct (getOrderbook_cases this depth w) as [(v & w' & _ & H)|(e & w' & _ & H)];
    rewrite H; eauto.
Qed.
End Facts.

(** ** Theorems *)

Section OrderbookTheorems.
Context {W : Type} (env : Env W).

Lemma read_failure_throws (this : SerumMarket) (depth : value) (w : W) :
  read_failure env this depth w ->
  exists e w', getOrderbook_try env this (default_depth depth) w = (Throw e, w').
Proof.
  intros F. unfold getOrderbook_try, bind.
  destruct (is_nullish (market this)).
  - unfold throw. eauto.
  - unfold Promise_all2.
    destruct F as [e w1 Hb | r e w1 w2 Hb Ha
                  | b a e w1 w2 w3 Hb Ha T Hl
                  | b a bids e w1 w2 w3 w4 Hb Ha Hs T Hl];
      rewrite Hb; try rewrite Ha.
    + destruct (loadAsks env (market this) (connection this) w1); eauto.
    + destruct r; eauto.
    + rewrite (side_levels_extraction_fails env _ _ _ _ _ T Hl). eauto.
    + rewrite Hs.
      rewrite (side_levels_extraction_fails env _ _ _ _ _ T Hl). eauto.
Qed.

(** C1.  Whenever one of the order-book loads or one of the level
    extractions behind [getOrderbook(depth)] throws, with whatever value,
    [getOrderbook] does not throw: it logs the value and returns exactly
    [{bids: [], asks: []}]. *)
Theorem getOrderbook_masks_read_failure (this : SerumMarket) (depth : value)
  (w : W) :
  read_failure env this depth w ->
  exists e w',
    getOrderbook env this depth w
    = (Normal empty_orderbook, console_error env e w').
Proof.
  intros F. destruct (read_failure_throws this depth w F) as (e & w' & Ht).
  destruct (getOrderbook_cases env this depth w)
    as [(v & w1 & Hn & _)|(e1 & w1 & _ & H)].
  - rewrite Ht in Hn. discriminate.
  - eauto.
Qed.

(** C9.  When the level extraction returns at most as many levels as the
    depth asks for, the book [getOrderbook(depth)] returns has at most that
    many levels in [bids] and at most that many in [asks].  The depth is a
    count [n] passed as a number, or omitted, which asks for 20. *)
Theorem getOrderbook_at_most_depth_levels (this : SerumMarket)
  (depth : value) (n : nat) (w : W) :
  default_depth depth = VNum (num_of_nat n) ->
  extraction_bounded env (default_depth depth) n ->
  exists bids asks w',
    getOrderbook env this depth w
    = (Normal (VObj [("bids", VArr bids); ("asks", VArr asks)]), w')
    /\ List.length bids <= n /\ List.length asks <= n.
Proof.
  intros _ Hb.
  destruct (getOrderbook_cases env this depth w)
    as [(v & w' & Hn & H)|(e & w' & _ & H)]; rewrite H.
  - unfold getOrderbook_try, bind in Hn.
    destruct (is_nullish (market this)); [discriminate|].
    destruct (Promise_all2 _ _ w) as [[[b a]|e] w1]; [|discriminate].
    destruct (side_levels env b (default_depth depth) w1)
      as [[bids|e] w2] eqn:Eb; [|discriminate].
    destruct (side_levels env a (default_depth depth) w2)
      as [[asks|e] w3] eqn:Ea; [|discriminate].
    unfold ret in Hn. inversion Hn; subst.
    destruct (side_levels_is_array env _ _ _ _ _ Eb) as (ys & ->).
    destruct (side_levels_is_array env _ _ _ _ _ Ea) as (zs & ->).
    exists ys, zs, w'. repeat split.
    + eapply side_levels_bounded; eauto.
    + eapply side_levels_bounded; eauto.
  - exists [], [], (console_error env e w'). repeat split; simpl; lia.
Qed.

(** C5.  On a client whose [initMarket] has not completed, so that
    [this.market] is still unset, [getBidAskSpread] returns
    [{bid: null, ask: null}] and [getOrderbook(depth)] returns
    [{bids: [], asks: []}]; neither throws. *)
Theorem not_ready_queries_return_sentinels
  (connection marketAddress dexProgramKey depth : value) (w : W) :
  getBidAskSpread env (new_SerumMarket connection marketAddress dexProgramKey) w
  = (Normal (VObj [("bid", VNull); ("ask", VNull)]), w)
  /\ exists e,
      getOrderbook env (new_SerumMarket connection marketAddress dexProgramKey)
        depth w
      = (Normal empty_orderbook, console_error env e w).
Proof.
  split.
  - reflexivity.
  - eexists. reflexivity.
Qed.
End OrderbookTheorems.


Lemma getOrderbook_masks_read_failure_witness :
  exists e w',
    getOrderbook (mock_env unreachable_node) ready_client (VNum 5%float) []
    = (Normal empty_orderbook, console_error (mock_env unreachable_node) e w').
Proof.
  apply (getOrderbook_masks_read_failure (mock_env unreachable_node)
           ready_client (VNum 5%float) []).
  eapply bids_load_fails. reflexivity.
Defined.

Lemma getOrderbook_at_most_depth_levels_witness :
  exists bids asks w',
    getOrderbook
      (mock_env (live_market [level 10 3; level 9 1; level 8 2]
                             [level 12 4; level 13 1]))
      ready_client (VNum 2%float) []
    = (Normal (VObj [("bids", VArr bids); ("asks", VArr asks)]), w')
    /\ List.length bids <= 2 /\ List.length asks <= 2.
Proof.
  apply (getOrderbook_at_most_depth_levels
           (mock_env (live_market [level 10 3; level 9 1; level 8 2]
                                  [level 12 4; level 13 1]))
           ready_client (VNum 2%float) 2 []).
  - reflexivity.
  - intros orderbook w levels w' H. simpl in H. unfold call in H.
    inversion H as [[Hl Hw]]. clear H Hw.
    unfold book_levels in Hl.
    destruct orderbook as [| | | | | | | |h]; try discriminate.
    destruct h as [|p]; try discriminate.
    do 4 (destruct p as [p|p|]; try discriminate);
      inversion Hl; vm_compute; lia.
Defined.

(** ** Prices *)

Lemma SFadd_comm (prec emax : Z) (x y : spec_float) :
  SFadd prec emax x y = SFadd prec emax y x.
Proof.
  destruct x as [sx|sx| |sx mx ex], y as [sy|sy| |sy my ey]; simpl;
    try reflexivity; try (destruct sx, sy; reflexivity).
  rewrite (Z.min_comm ey ex). f_equal. apply Z.add_comm.
Qed.

Lemma float_add_comm (x y : float) : (x + y = y + x)%float.
Proof.
  apply Prim2SF_inj. rewrite !add_spec. apply SFadd_comm.
Qed.


Section PriceTheorems.
Context {W : Type} (env : Env W).

Lemma getPrice_of_spread (this : SerumMarket) (w w' : W) (bid ask : value) :
  getBidAskSpread env this w
  = (Normal (VObj [("bid", bid); ("ask", ask)]), w') ->
  null_or_number bid = true ->
  null_or_number ask = true ->
  getPrice env this w
  = (Normal (VNum ((ToNumber env ask - ToNumber env bid) / 2
                   + ToNumber env bid)%float), w').
Proof.
  intros H Hb Ha. unfold getPrice, bind. rewrite H. simpl.
  destruct bid; try discriminate; destruct ask; try discriminate; reflexivity.
Qed.

(** C4.  When the spread query yields a numeric bid and a numeric ask,
    [getPrice] returns the midpoint [bid + (ask - bid) / 2], in the
    arithmetic of JavaScript numbers. *)
Theorem getPrice_is_midpoint (this : SerumMarket) (w w' : W)
  (bid ask : float) :
  getBidAskSpread env this w
  = (Normal (VObj [("bid", VNum bid); ("ask", VNum ask)]), w') ->
  getPrice env this w = (Normal (VNum (bid + (ask - bid) / 2)%float), w').
Proof.
  intros H.
  rewrite (getPrice_of_spread this w w' (VNum bid) (VNum ask) H eq_refl eq_refl).
  simpl. rewrite float_add_comm. reflexivity.
Qed.

(** C3, as amended.  When the spread query yields [null] for the bid or
    for the ask, the other side being [null] or a number, [getPrice] takes
    each [null] for 0 and returns [(ask - bid) / 2 + bid] computed on the
    converted sides; when both sides are [null] that is 0. *)
Theorem getPrice_takes_null_for_zero (this : SerumMarket) (w w' : W)
  (bid ask : value) :
  getBidAskSpread env this w
  = (Normal (VObj [("bid", bid); ("ask", ask)]), w') ->
  bid = VNull \/ ask = VNull ->
  null_or_number bid = true ->
  null_or_number ask = true ->
  getPrice env this w
  = (Normal (VNum ((ToNumber env ask - ToNumber env bid) / 2
                   + ToNumber env bid)%float), w')
  /\ ToNumber env VNull = 0%float
  /\ (bid = VNull -> ask = VNull ->
      getPrice env this w = (Normal (VNum 0%float), w')).
Proof.
  intros H _ Hb Ha. split; [|split].
  - apply getPrice_of_spread; assumption.
  - reflexivity.
  - intros -> ->. rewrite (getPrice_of_spread this w w' VNull VNull H Hb Ha).
    reflexivity.
Qed.
End PriceTheorems.

Lemma getPrice_is_midpoint_witness :
  exists w',
    getPrice (mock_env (live_market [level 10 3] [level 12 4])) ready_client []
    = (Normal (VNum 11%float), w').
Proof.
  eexists.
  exact (getPrice_is_midpoint
           (mock_env (live_market [level 10 3] [level 12 4]))
           ready_client [] _ 10%float 12%float eq_refl).
Defined.

Lemma getPrice_takes_null_for_zero_witness :
  getPrice (mock_env (live_market [level 10 3] [level 12 4]))
    (new_SerumMarket the_connection (VRef 5) the_program) []
  = (Normal (VNum 0%float), []).
Proof.
  apply (getPrice_takes_null_for_zero
           (mock_env (live_market [level 10 3] [level 12 4]))
           (new_SerumMarket the_connection (VRef 5) the_program) [] []
           VNull VNull);
    solve [reflexivity | left; reflexivity].
Defined.

(** C3, as stated, fails: on a client that is not initialized the spread
    is [{bid: null, ask: null}] and [getPrice] returns 0, which is not
    NaN. *)
Lemma getPrice_not_ready_is_not_nan :
  getBidAskSpread (mock_env (live_market [level 10 3] [level 12 4]))
    (new_SerumMarket the_connection (VRef 5) the_program) []
  = (Normal (VObj [("bid", VNull); ("ask", VNull)]), [])
  /\ getPrice (mock_env (live_market [level 10 3] [level 12 4]))
       (new_SerumMarket the_connection (VRef 5) the_program) []
     = (Normal (VNum 0%float), [])
  /\ PrimFloat.is_nan 0%float = false.
Proof. repeat split. Qed.

Section SpreadFacts.
Context {W : Type} (env : Env W).

(** With any libraries: once both sides are loaded and the bid side has no
    level, reading the price of the best bid throws. *)
Lemma getBidAskSpread_no_bid_level (this : SerumMarket)
  (bidOrderbook askOrderbook askLevels : value) (w w1 w2 w3 w4 : W) :
  ToBoolean (market this) = true ->
  loadBids env (market this) (connection this) w = (Normal bidOrderbook, w1) ->
  loadAsks env (market this) (connection this) w1 = (Normal askOrderbook, w2) ->
  is_nullish bidOrderbook = false ->
  getL2 env bidOrderbook (VNum 1%float) w2 = (Normal (VArr []), w3) ->
  is_nullish askOrderbook = false ->
  getL2 env askOrderbook (VNum 1%float) w3 = (Normal askLevels, w4) ->
  is_nullish askLevels = false ->
  getBidAskSpread env this w
  = (Throw (TypeError "Cannot read properties of undefined (reading '0')"), w4).
Proof.
  intros Tm Hb Ha Nb Lb Na La Nl.
  unfold getBidAskSpread, invoke, bind, lift.
  rewrite Tm, (truthy_not_nullish _ Tm). simpl.
  rewrite Hb, Ha, Nb. change PrimFloat.one with 1%float.
  rewrite Lb. simpl. rewrite Na, La.
  destruct askLevels; try discriminate; reflexivity.
Qed.
End SpreadFacts.

(** C2, on the code.  With a market whose bid side is empty, or whose ask
    side is empty, [getBidAskSpread] does not return [null] for that side:
    [getL2(1)[0]] is [undefined] and reading its price throws a
    TypeError. *)
Theorem getBidAskSpread_empty_side_throws :
  fst (getBidAskSpread (mock_env (live_market [] [level 12 4])) ready_client [])
  = Throw (TypeError "Cannot read properties of undefined (reading '0')")
  /\ fst (getBidAskSpread (mock_env (live_market [level 10 3] [])) ready_client [])
     = Throw (TypeError "Cannot read properties of undefined (reading '0')").
Proof. split; reflexivity. Qed.

(** ** Market lookup *)


Section LookupTheorems.
Context {W : Type} (env : Env W).

Lemma decode_account_is_match (item : value) (w w' : W) (r : value) :
  decode_account env item w = (Normal r, w') -> is_match r.
Proof.
  unfold decode_account, bind, lift, ret. intros H.
  repeat match type of H with
         | context [match ?c with _ => _ end] =>
             match c with
             | (_, _) => fail 1
             | _ => let E := fresh "E" in
                    destruct c as [[?|?] ?] eqn:E; try discriminate
             end
         | context [match ?c with Normal _ => _ | Throw _ => _ end] =>
             destruct c eqn:?; try discriminate
         end.
  inversion H. eexists; eexists; reflexivity.
Qed.

Lemma mapM_decode_account_matches (items : list value) :
  forall (w w' : W) (rs : list value),
    mapM (decode_account env) items w = (Normal rs, w') -> Forall is_match rs.
Proof.
  induction items as [|item rest IH]; intros w w' rs H; simpl in H.
  - inversion H. constructor.
  - unfold bind in H.
    destruct (decode_account env item w) as [[r|e] w1] eqn:E; [|discriminate].
    destruct (mapM (decode_account env) rest w1) as [[rs'|e] w2] eqn:E'; [|discriminate].
    inversion H; subst. constructor.
    + eapply decode_account_is_match; eauto.
    + eapply IH; eauto.
Qed.

Lemma getMarketByAssetKeys_matches
  (connection baseMintAddress quoteMintAddress dexProgramId : value)
  (w w' : W) (matches : list value) :
  getMarketByAssetKeys env connection baseMintAddress quoteMintAddress
    dexProgramId w = (Normal (VArr matches), w') ->
  Forall is_match matches.
Proof.
  unfold getMarketByAssetKeys, bind, lift. intros H.
  destruct (getProgramAccounts env _ _ _ _ w) as [[resp|e] w1]; [|discriminate].
  destruct (GetV env resp "error") as [error|e]; [|discriminate].
  destruct (ToBoolean error).
  - destruct (GetV env error "message") as [message|e]; [|discriminate].
    destruct (new_Error env message); discriminate.
  - destruct (GetV env resp "result") as [result|e]; [|discriminate].
    destruct result; simpl in H; try discriminate.
    unfold bind in H.
    destruct (mapM (decode_account env) xs w1) as [[rs|e] w2] eqn:E; [|discriminate].
    inversion H; subst. eapply mapM_decode_account_matches; eauto.
Qed.

(** C6.  When the node's response to the [getProgramAccounts] request
    carries an [error] member, [getMarketByAssetKeys] throws an [Error]
    whose message is the message of that member, unchanged. *)
Theorem getMarketByAssetKeys_raises_node_message
  (connection baseMintAddress quoteMintAddress dexProgramId : value)
  (w w' : W) (resp error : value) (message : string) :
  getProgramAccounts env connection baseMintAddress quoteMintAddress
    dexProgramId w = (Normal resp, w') ->
  GetV env resp "error" = Normal error ->
  ToBoolean error = true ->
  GetV env error "message" = Normal (VStr message) ->
  getMarketByAssetKeys env connection baseMintAddress quoteMintAddress
    dexProgramId w = (Throw (VError "Error" message), w').
Proof.
  intros Hr He Ht Hm. unfold getMarketByAssetKeys, bind, lift.
  rewrite Hr, He, Ht, Hm. reflexivity.
Qed.

(** C7.  When the account query finds no match, [findByAssets] returns
    [null] and does not throw.  When it finds one or more, [findByAssets]
    builds a client on the public key of the first match and runs its
    initialisation: it returns that client with the market [Market.load]
    resolved to, and a rejection of [Market.load] is the only way it does
    not. *)
Theorem findByAssets_first_match
  (conn baseMint quoteMint programKey : value)
  (w w1 : W) (matches : list value) :
  getMarketByAssetKeys env conn baseMint quoteMint programKey w
  = (Normal (VArr matches), w1) ->
  match matches with
  | [] =>
      findByAssets env conn baseMint quoteMint programKey w = (Normal None, w1)
  | first :: _ =>
      exists publicKey,
        GetV env first "publicKey" = Normal publicKey
        /\ findByAssets env conn baseMint quoteMint programKey w
           = match initMarket env (new_SerumMarket conn publicKey programKey) w1
             with
             | (Normal client, w2) => (Normal (Some client), w2)
             | (Throw e, w2) => (Throw e, w2)
             end
        /\ initMarket env (new_SerumMarket conn publicKey programKey) w1
           = match Market_load env conn publicKey (VObj []) programKey w1 with
             | (Normal handle, w2) =>
                 (Normal {| connection := conn;
                            marketAddress := publicKey;
                            dexProgramKey := programKey;
                            market := handle |}, w2)
             | (Throw e, w2) => (Throw e, w2)
             end
  end.
Proof.
  intros H. pose proof (getMarketByAssetKeys_matches _ _ _ _ _ _ _ H) as F.
  unfold findByAssets, bind. rewrite H.
  destruct matches as [|first rest]; [reflexivity|].
  inversion F as [|? ? (publicKey & accountInfo & ->) _]; subst.
  exists publicKey. split; [reflexivity|]. split.
  - simpl. unfold bind, ret.
    destruct (initMarket env _ w1) as [[client|e] w2]; reflexivity.
  - unfold initMarket, getMarket, bind, ret. simpl.
    destruct (Market_load env conn publicKey (VObj []) programKey w1)
      as [[handle|e] w2]; reflexivity.
Qed.
End LookupTheorems.


Lemma getMarketByAssetKeys_raises_node_message_witness :
  exists w',
    getMarketByAssetKeys (mock_env failing_scan) the_connection (VRef 6)
      (VRef 7) the_program []
    = (Throw (VError "Error" "x"), w').
Proof.
  eexists.
  apply (getMarketByAssetKeys_raises_node_message (mock_env failing_scan)
           the_connection (VRef 6) (VRef 7) the_program [] _
           (VObj [("error", VObj [("message", VStr "x")])])
           (VObj [("message", VStr "x")]) "x");
    [vm_compute; reflexivity | reflexivity ..].
Defined.

Lemma findByAssets_first_match_witness :
  exists publicKey,
    GetV (mock_env (scan_finds [scanned_account "A"; scanned_account "B"]))
      (VObj [("publicKey", VObj [("PublicKey", VStr "A")]);
             ("accountInfo",
              VObj [("data", VObj [("Buffer", VStr "AAAA")]);
                    ("executable", VBool false);
                    ("owner", VObj [("PublicKey", VStr "DEX")]);
                    ("lamports", VNum 1000%float)])])
      "publicKey" = Normal publicKey
    /\ fst (findByAssets
              (mock_env (scan_finds [scanned_account "A"; scanned_account "B"]))
              the_connection (VRef 6) (VRef 7) the_program [])
       = Normal (Some {| connection := the_connection;
                         marketAddress := publicKey;
                         dexProgramKey := the_program;
                         market := the_market |}).
Proof.
  destruct (findByAssets_first_match
              (mock_env (scan_finds [scanned_account "A"; scanned_account "B"]))
              the_connection (VRef 6) (VRef 7) the_program [] _ _ eq_refl)
    as (publicKey & Hk & Hf & _).
  exists publicKey. split; [exact Hk|].
  rewrite Hf. inversion Hk. reflexivity.
Defined.

(** ** Order construction *)

Section OrderTheorems.
Context {W : Type} (env : Env W).

Lemma lookup_absent (k : string) (props : list (string * value)) :
  (forall v, ~ In (k, v) props) -> lookup k props = VUndefined.
Proof.
  induction props as [|[k' v'] rest IH]; intros H; simpl; [reflexivity|].
  destruct (String.eqb k k') eqn:E.
  - apply String.eqb_eq in E. subst. exfalso. apply (H v'). left. reflexivity.
  - apply IH. intros v Hin. apply (H v). right. exact Hin.
Qed.

(** C8.  On a client with a resolved market, [createPlaceOrderTx] hands
    owner, payer, side, price, size, orderType and the four fields of the
    options bundle to the transaction builder of the SDK as it received
    them, and its result is the builder's. *)
Theorem createPlaceOrderTx_forwards_arguments (this : SerumMarket)
  (conn owner payer side price size orderType
   clientId openOrdersAddressKey openOrdersAccount feeDiscountPubkey : value) :
  is_nullish (market this) = false ->
  createPlaceOrderTx env this
    (VObj [("connection", conn);
           ("owner", owner);
           ("payer", payer);
           ("side", side);
           ("price", price);
           ("size", size);
           ("orderType", orderType);
           ("opts", VObj [("clientId", clientId);
                          ("openOrdersAddressKey", openOrdersAddressKey);
                          ("openOrdersAccount", openOrdersAccount);
                          ("feeDiscountPubkey", feeDiscountPubkey)])])
  = makePlaceOrderTransaction env (market this) conn
      (VObj [("owner", owner);
             ("payer", payer);
             ("side", side);
             ("price", price);
             ("size", size);
             ("orderType", orderType);
             ("clientId", clientId);
             ("openOrdersAddressKey", openOrdersAddressKey);
             ("openOrdersAccount", openOrdersAccount);
             ("feeDiscountPubkey", feeDiscountPubkey)]).
Proof.
  intros H. unfold createPlaceOrderTx, invoke. rewrite H. reflexivity.
Qed.
End OrderTheorems.


Section ConnectionTheorems.
Context {W : Type} (env : Env W).

Lemma createPlaceOrderTx_with_opts (this : SerumMarket)
  (props opts : list (string * value)) :
  is_nullish (market this) = false ->
  lookup "opts" props = VObj opts ->
  createPlaceOrderTx env this (VObj props)
  = makePlaceOrderTransaction env (market this) (lookup "connection" props)
      (params_of props opts).
Proof.
  intros H Ho. unfold createPlaceOrderTx, invoke. rewrite H.
  unfold bind, lift. simpl. rewrite Ho. reflexivity.
Qed.

Lemma createPlaceOrderTx_without_opts (this : SerumMarket)
  (props : list (string * value)) :
  is_nullish (market this) = false ->
  lookup "opts" props = VUndefined ->
  createPlaceOrderTx env this (VObj props)
  = makePlaceOrderTransaction env (market this) (lookup "connection" props)
      (params_of props []).
Proof.
  intros H Ho. unfold createPlaceOrderTx, invoke. rewrite H.
  unfold bind, lift. simpl. rewrite Ho. reflexivity.
Qed.

(** C10.  On a client with a resolved market, the connection
    [createPlaceOrderTx] hands to the transaction builder is the
    [connection] property of the call's argument object, whatever
    connection the client itself holds; when the argument has no such
    property it is [undefined].  When the argument has no [opts], the call
    does not fail on that account: the builder is called with [clientId],
    [openOrdersAddressKey], [openOrdersAccount] and [feeDiscountPubkey] all
    [undefined]. *)
Theorem createPlaceOrderTx_connection_of_argument (this : SerumMarket)
  (props : list (string * value)) :
  is_nullish (market this) = false ->
  (forall opts, lookup "opts" props = VObj opts ->
     createPlaceOrderTx env this (VObj props)
     = makePlaceOrderTransaction env (market this)
         (lookup "connection" props) (params_of props opts))
  /\ (forall stored,
        createPlaceOrderTx env
          {| connection := stored;
             marketAddress := marketAddress this;
             dexProgramKey := dexProgramKey this;
             market := market this |} (VObj props)
        = createPlaceOrderTx env this (VObj props))
  /\ (forall opts, omits "connection" props ->
        lookup "opts" props = VObj opts ->
        createPlaceOrderTx env this (VObj props)
        = makePlaceOrderTransaction env (market this) VUndefined
            (params_of props opts))
  /\ (omits "opts" props ->
        createPlaceOrderTx env this (VObj props)
        = makePlaceOrderTransaction env (market this)
            (lookup "connection" props)
            (order_params (lookup "owner" props) (lookup "payer" props)
               (lookup "side" props) (lookup "price" props)
               (lookup "size" props) (lookup "orderType" props)
               VUndefined VUndefined VUndefined VUndefined)).
Proof.
  intros H. split; [|split; [|split]].
  - intros opts Ho. apply createPlaceOrderTx_with_opts; assumption.
  - intros stored. reflexivity.
  - intros opts Hc Ho.
    rewrite (createPlaceOrderTx_with_opts this props opts H Ho).
    rewrite (lookup_absent "connection" props Hc). reflexivity.
  - intros Ho.
    apply (createPlaceOrderTx_without_opts this props H).
    apply lookup_absent. exact Ho.
Qed.
End ConnectionTheorems.

Lemma createPlaceOrderTx_forwards_arguments_witness :
  createPlaceOrderTx (mock_env (live_market [level 10 3] [level 12 4]))
    ready_client
    (VObj [("connection", VRef 9);
           ("owner", VRef 40);
           ("payer", VRef 41);
           ("side", VStr "buy");
           ("price", VNum 10.5%float);
           ("size", VNum 2%float);
           ("orderType", VStr "limit");
           ("opts", VObj [("clientId", VRef 42);
                          ("openOrdersAddressKey", VRef 43);
                          ("openOrdersAccount", VRef 44);
                          ("feeDiscountPubkey", VRef 45)])])
  = makePlaceOrderTransaction
      (mock_env (live_market [level 10 3] [level 12 4])) the_market (VRef 9)
      (VObj [("owner", VRef 40);
             ("payer", VRef 41);
             ("side", VStr "buy");
             ("price", VNum 10.5%float);
             ("size", VNum 2%float);
             ("orderType", VStr "limit");
             ("clientId", VRef 42);
             ("openOrdersAddressKey", VRef 43);
             ("openOrdersAccount", VRef 44);
             ("feeDiscountPubkey", VRef 45)]).
Proof.
  apply (createPlaceOrderTx_forwards_arguments
           (mock_env (live_market [level 10 3] [level 12 4])) ready_client).
  reflexivity.
Defined.

Lemma createPlaceOrderTx_connection_of_argument_witness :
  createPlaceOrderTx (mock_env (live_market [level 10 3] [level 12 4]))
    ready_client
    (VObj [("owner", VRef 40); ("payer", VRef 41); ("side", VStr "sell");
           ("price", VNum 12%float); ("size", VNum 1%float)]) []
  = (Normal (VObj [("transaction", VRef 30); ("signers", VArr [])]),
     [VArr [VStr "makePlaceOrderTransaction"; the_market; VUndefined;
            VObj [("owner", VRef 40);
                  ("payer", VRef 41);
                  ("side", VStr "sell");
                  ("price", VNum 12%float);
                  ("size", VNum 1%float);
                  ("orderType", VUndefined);
                  ("clientId", VUndefined);
                  ("openOrdersAddressKey", VUndefined);
                  ("openOrdersAccount", VUndefined);
                  ("feeDiscountPubkey", VUndefined)]]]).
Proof.
  destruct (createPlaceOrderTx_connection_of_argument
              (mock_env (live_market [level 10 3] [level 12 4])) ready_client
              [("owner", VRef 40); ("payer", VRef 41); ("side", VStr "sell");
               ("price", VNum 12%float); ("size", VNum 1%float)] eq_refl)
    as (_ & _ & _ & Hno).
  rewrite Hno.
  - reflexivity.
  - intros v Hin. simpl in Hin. intuition discriminate.
Defined.


(** ** Further properties of the wrapper *)

Section SpreadTheorems.
Context {W : Type} (env : Env W).

(** X1.  On a client with a resolved market, when both sides load and
    each [getL2(1)] returns an array whose first entry is a level,
    [getBidAskSpread] returns the first component of the first bid level
    as [bid] and of the first ask level as [ask]; sizes and further levels
    play no part. *)
Theorem getBidAskSpread_best_prices (this : SerumMarket)
  (bidOrderbook askOrderbook : value)
  (bidLevel askLevel bidRest askRest : list value) (w w1 w2 w3 w4 : W) :
  ToBoolean (market this) = true ->
  loadBids env (market this) (connection this) w = (Normal bidOrderbook, w1) ->
  loadAsks env (market this) (connection this) w1 = (Normal askOrderbook, w2) ->
  is_nullish bidOrderbook = false ->
  getL2 env bidOrderbook (VNum 1%float) w2
  = (Normal (VArr (VArr bidLevel :: bidRest)), w3) ->
  is_nullish askOrderbook = false ->
  getL2 env askOrderbook (VNum 1%float) w3
  = (Normal (VArr (VArr askLevel :: askRest)), w4) ->
  getBidAskSpread env this w
  = (Normal (VObj [("bid", nth 0 bidLevel VUndefined);
                   ("ask", nth 0 askLevel VUndefined)]), w4).
Proof.
  intros Tm Hb Ha Nb Lb Na La.
  unfold getBidAskSpread, invoke, bind, lift.
  rewrite Tm, (truthy_not_nullish _ Tm). simpl.
  rewrite Hb, Ha, Nb. change PrimFloat.one with 1%float.
  rewrite Lb. simpl. rewrite Na, La. reflexivity.
Qed.

(** X2.  On a client with a resolved market, a rejection of [loadBids],
    or of [loadAsks] after the bids have loaded, is not masked by
    [getBidAskSpread] nor by [getPrice]: both reject with the same value,
    and nothing is read after the load that failed. *)
Theorem spread_and_price_propagate_load_failure (this : SerumMarket)
  (w : W) (e : value) (w' : W) :
  ToBoolean (market this) = true ->
  load_failure env this w e w' ->
  getBidAskSpread env this w = (Throw e, w')
  /\ getPrice env this w = (Throw e, w').
Proof.
  intros Tm F.
  assert (S : getBidAskSpread env this w = (Throw e, w')).
  { unfold getBidAskSpread, invoke, bind.
    rewrite Tm, (truthy_not_nullish _ Tm). simpl.
    destruct F as [Hb | b w1 Hb Ha]; rewrite Hb; [reflexivity|].
    rewrite Ha. reflexivity. }
  split; [exact S|].
  unfold getPrice, bind. rewrite S. reflexivity.
Qed.
End SpreadTheorems.

Lemma getBidAskSpread_best_prices_witness :
  exists w',
    getBidAskSpread
      (mock_env (live_market [level 10 3; level 9 1] [level 12 4]))
      ready_client []
    = (Normal (VObj [("bid", VNum 10%float); ("ask", VNum 12%float)]), w').
Proof.
  eexists.
  eapply (getBidAskSpread_best_prices
            (mock_env (live_market [level 10 3; level 9 1] [level 12 4]))
            ready_client the_bids the_asks
            [VNum 10%float; VNum 3%float; VRef 20; VRef 21]
            [VNum 12%float; VNum 4%float; VRef 20; VRef 21] [] [] []);
    vm_compute; reflexivity.
Defined.

Lemma spread_and_price_propagate_load_failure_witness :
  exists w',
    getBidAskSpread (mock_env (asks_unavailable [level 10 3])) ready_client []
    = (Throw (VStr "429 Too Many Requests"), w')
    /\ getPrice (mock_env (asks_unavailable [level 10 3])) ready_client []
       = (Throw (VStr "429 Too Many Requests"), w').
Proof.
  eexists.
  apply (spread_and_price_propagate_load_failure
           (mock_env (asks_unavailable [level 10 3])) ready_client []).
  - reflexivity.
  - eapply spread_asks_fail; reflexivity.
Defined.

Section SnapshotTheorems.
Context {W : Type} (env : Env W).

Lemma mapM_level_object_rows (rows : list (list value)) (w : W) :
  mapM level_object (map VArr rows) w = (Normal (map level_entry rows), w).
Proof.
  induction rows as [|row rest IH]; simpl; [reflexivity|].
  unfold bind at 1. unfold level_object at 1. unfold bind, lift, ret. simpl.
  unfold bind. rewrite IH. reflexivity.
Qed.

Lemma side_levels_rows (orderbook depth : value) (rows : list (list value))
  (w w' : W) :
  ToBoolean orderbook = true ->
  getL2 env orderbook depth w = (Normal (VArr (map VArr rows)), w') ->
  side_levels env orderbook depth w = (Normal (VArr (map level_entry rows)), w').
Proof.
  intros T H. unfold side_levels. rewrite T. simpl.
  rewrite invoke_not_nullish by (apply truthy_not_nullish; exact T).
  unfold bind. rewrite H. simpl. unfold bind.
  rewrite mapM_level_object_rows. reflexivity.
Qed.

Lemma mapM_level_object_fails (levels : list value) (w : W) :
  forallb iterable levels = false ->
  exists e, mapM level_object levels w = (Throw e, w).
Proof.
  induction levels as [|l rest IH]; simpl; [discriminate|].
  intros H. unfold bind at 1. unfold level_object at 1. unfold bind, lift.
  destruct (destructure2 l) as [[price size]|e] eqn:D.
  - unfold ret at 1. cbv beta iota.
    assert (I : iterable l = true) by (destruct l; simpl in D; try discriminate; reflexivity).
    rewrite I in H. simpl in H. destruct (IH H) as (e & ->).
    exists e. reflexivity.
  - exists e. reflexivity.
Qed.

Lemma side_levels_malformed (orderbook depth levels : value) (w w' : W) :
  ToBoolean orderbook = true ->
  getL2 env orderbook depth w = (Normal levels, w') ->
  levels_ok levels = false ->
  exists e, side_levels env orderbook depth w = (Throw e, w').
Proof.
  intros T H K. unfold side_levels. rewrite T. simpl.
  rewrite invoke_not_nullish by (apply truthy_not_nullish; exact T).
  unfold bind. rewrite H.
  destruct levels; simpl in K |- *; try (eexists; reflexivity).
  unfold bind. destruct (mapM_level_object_fails xs w' K) as (e & ->).
  exists e. reflexivity.
Qed.

(** X3.  When both sides load and each [getL2(depth)] returns an array of
    levels, [getOrderbook] returns, for each side, one [{price, size}]
    entry per level in the order the SDK gave them, made of the first two
    components of the level; the lot counts that follow are dropped. *)
Theorem getOrderbook_levels_in_order (this : SerumMarket) (depth : value)
  (bidOrderbook askOrderbook : value) (bidRows askRows : list (list value))
  (w w1 w2 w3 w4 : W) :
  is_nullish (market this) = false ->
  loadBids env (market this) (connection this) w = (Normal bidOrderbook, w1) ->
  loadAsks env (market this) (connection this) w1 = (Normal askOrderbook, w2) ->
  ToBoolean bidOrderbook = true ->
  getL2 env bidOrderbook (default_depth depth) w2
  = (Normal (VArr (map VArr bidRows)), w3) ->
  ToBoolean askOrderbook = true ->
  getL2 env askOrderbook (default_depth depth) w3
  = (Normal (VArr (map VArr askRows)), w4) ->
  getOrderbook env this depth w
  = (Normal (VObj [("bids", VArr (map level_entry bidRows));
                   ("asks", VArr (map level_entry askRows))]), w4).
Proof.
  intros Nm Hb Ha Tb Lb Ta La.
  unfold getOrderbook, try_catch, getOrderbook_try, bind.
  rewrite Nm. unfold Promise_all2. rewrite Hb, Ha.
  rewrite (side_levels_rows _ _ _ _ _ Tb Lb).
  rewrite (side_levels_rows _ _ _ _ _ Ta La). reflexivity.
Qed.

(** X4.  When a side's load resolves to a falsy value, [getOrderbook]
    returns [[]] for that side without asking it for levels, and still
    returns the levels of the other side; nothing is logged. *)
Theorem getOrderbook_absent_bid_book (this : SerumMarket) (depth : value)
  (bidOrderbook askOrderbook : value) (askRows : list (list value))
  (w w1 w2 w3 : W) :
  is_nullish (market this) = false ->
  loadBids env (market this) (connection this) w = (Normal bidOrderbook, w1) ->
  loadAsks env (market this) (connection this) w1 = (Normal askOrderbook, w2) ->
  ToBoolean bidOrderbook = false ->
  ToBoolean askOrderbook = true ->
  getL2 env askOrderbook (default_depth depth) w2
  = (Normal (VArr (map VArr askRows)), w3) ->
  getOrderbook env this depth w
  = (Normal (VObj [("bids", VArr []);
                   ("asks", VArr (map level_entry askRows))]), w3).
Proof.
  intros Nm Hb Ha Fb Ta La.
  unfold getOrderbook, try_catch, getOrderbook_try, bind.
  rewrite Nm. unfold Promise_all2. rewrite Hb, Ha.
  unfold side_levels at 1. rewrite Fb. simpl.
  rewrite (side_levels_rows _ _ _ _ _ Ta La). reflexivity.
Qed.

(** X5.  When the bids' [getL2] returns something that is not an array of
    destructurable levels, [getOrderbook] returns no partial book: the
    asks are not read and the result is [{bids: [], asks: []}], after
    logging. *)
Theorem getOrderbook_malformed_levels (this : SerumMarket) (depth : value)
  (bidOrderbook askOrderbook levels : value) (w w1 w2 w3 : W) :
  is_nullish (market this) = false ->
  loadBids env (market this) (connection this) w = (Normal bidOrderbook, w1) ->
  loadAsks env (market this) (connection this) w1 = (Normal askOrderbook, w2) ->
  ToBoolean bidOrderbook = true ->
  getL2 env bidOrderbook (default_depth depth) w2 = (Normal levels, w3) ->
  levels_ok levels = false ->
  exists e,
    getOrderbook env this depth w
    = (Normal empty_orderbook, console_error env e w3).
Proof.
  intros Nm Hb Ha Tb Lb K.
  destruct (side_levels_malformed _ _ _ _ _ Tb Lb K) as (e & S).
  exists e.
  unfold getOrderbook, try_catch, getOrderbook_try, bind.
  rewrite Nm. unfold Promise_all2. rewrite Hb, Ha, S. reflexivity.
Qed.
End SnapshotTheorems.

Lemma getOrderbook_levels_in_order_witness :
  exists w',
    getOrderbook
      (mock_env (live_market [level 10 3; level 9 1; level 8 2]
                             [level 12 4; level 13 1]))
      ready_client (VNum 2%float) []
    = (Normal
         (VObj [("bids", VArr [VObj [("price", VNum 10%float); ("size", VNum 3%float)];
                               VObj [("price", VNum 9%float); ("size", VNum 1%float)]]);
                ("asks", VArr [VObj [("price", VNum 12%float); ("size", VNum 4%float)];
                               VObj [("price", VNum 13%float); ("size", VNum 1%float)]])]),
       w').
Proof.
  eexists.
  eapply (getOrderbook_levels_in_order
            (mock_env (live_market [level 10 3; level 9 1; level 8 2]
                                   [level 12 4; level 13 1]))
            ready_client (VNum 2%float) the_bids the_asks
            [[VNum 10%float; VNum 3%float; VRef 20; VRef 21];
             [VNum 9%float; VNum 1%float; VRef 20; VRef 21]]
            [[VNum 12%float; VNum 4%float; VRef 20; VRef 21];
             [VNum 13%float; VNum 1%float; VRef 20; VRef 21]] []);
    vm_compute; reflexivity.
Defined.

Lemma getOrderbook_absent_bid_book_witness :
  exists w',
    getOrderbook (mock_env (no_bid_book [level 12 4])) ready_client
      VUndefined []
    = (Normal
         (VObj [("bids", VArr []);
                ("asks", VArr [VObj [("price", VNum 12%float);
                                     ("size", VNum 4%float)]])]),
       w').
Proof.
  eexists.
  eapply (getOrderbook_absent_bid_book
            (mock_env (no_bid_book [level 12 4])) ready_client VUndefined
            VNull the_asks [[VNum 12%float; VNum 4%float; VRef 20; VRef 21]] []);
    vm_compute; reflexivity.
Defined.

Lemma getOrderbook_malformed_levels_witness :
  exists e w',
    getOrderbook (mock_env (live_market [VNum 7%float] [level 12 4]))
      ready_client (VNum 5%float) []
    = (Normal empty_orderbook,
       console_error (mock_env (live_market [VNum 7%float] [level 12 4])) e w').
Proof.
  assert (H := getOrderbook_malformed_levels
                 (mock_env (live_market [VNum 7%float] [level 12 4]))
                 ready_client (VNum 5%float) the_bids the_asks
                 (VArr [VNum 7%float]) [] _ _ _
                 eq_refl eq_refl eq_refl eq_refl eq_refl eq_refl).
  destruct H as (e & H). exists e. eexists. exact H.
Defined.

Section ScanTheorems.
Context {W : Type} (env : Env W).

Lemma decode_account_decoded (item : value) (w w' : W) (r : value) :
  decode_account env item w = (Normal r, w') -> decoded env item r.
Proof.
  unfold decode_account, bind, lift, ret. intros H.
  destruct (GetV env item "pubkey") as [pubkey|] eqn:E1; [|discriminate].
  destruct (GetV env item "account") as [account|] eqn:E2; [|discriminate].
  destruct (GetV env account "data") as [data|] eqn:E3; [|discriminate].
  destruct (GetV env account "executable") as [executable|] eqn:E4; [|discriminate].
  destruct (GetV env account "owner") as [owner|] eqn:E5; [|discriminate].
  destruct (GetV env account "lamports") as [lamports|] eqn:E6; [|discriminate].
  destruct (new_PublicKey env pubkey w) as [[publicKey|] w1] eqn:E7; [|discriminate].
  destruct (GetIndex env data 0) as [data0|] eqn:E8; [|discriminate].
  destruct (Buffer_from env data0 (VStr "base64") w1) as [[buffer|] w2] eqn:E9;
    [|discriminate].
  destruct (new_PublicKey env owner w2) as [[ownerKey|] w3] eqn:E10; [|discriminate].
  inversion H; subst.
  exists pubkey, account, data, executable, owner, lamports, data0,
    publicKey, buffer, ownerKey, w, w1, w1, w2, w2, w'.
  repeat split; assumption.
Qed.

Lemma mapM_decode_account_decoded (items : list value) :
  forall (w w' : W) (rs : list value),
    mapM (decode_account env) items w = (Normal rs, w') ->
    Forall2 (decoded env) items rs.
Proof.
  induction items as [|item rest IH]; intros w w' rs H; simpl in H.
  - inversion H. constructor.
  - unfold bind in H.
    destruct (decode_account env item w) as [[r|e] w1] eqn:E; [|discriminate].
    destruct (mapM (decode_account env) rest w1) as [[rs'|e] w2] eqn:E';
      [|discriminate].
    inversion H; subst. constructor.
    + eapply decode_account_decoded; eauto.
    + eapply IH; eauto.
Qed.

(** X6.  When the node's response carries no error and its [result] is an
    array, whatever [getMarketByAssetKeys] returns is an array with one
    entry per scanned account, in the node's order: [publicKey] built from
    the account's [pubkey], [accountInfo.data] from [data[0]] read as base
    64, [accountInfo.owner] from [owner], and [executable] and [lamports]
    copied. *)
Theorem getMarketByAssetKeys_decodes_in_order
  (conn baseMint quoteMint programId : value) (w w1 w2 : W)
  (resp error r : value) (accounts : list value) :
  getProgramAccounts env conn baseMint quoteMint programId w
  = (Normal resp, w1) ->
  GetV env resp "error" = Normal error ->
  ToBoolean error = false ->
  GetV env resp "result" = Normal (VArr accounts) ->
  getMarketByAssetKeys env conn baseMint quoteMint programId w
  = (Normal r, w2) ->
  exists entries, r = VArr entries /\ Forall2 (decoded env) accounts entries.
Proof.
  intros Hr He Hf Hres H.
  unfold getMarketByAssetKeys, bind, lift in H.
  rewrite Hr, He, Hf, Hres in H. simpl in H. unfold bind in H.
  destruct (mapM (decode_account env) accounts w1) as [[rs|e] w3] eqn:E;
    [|discriminate].
  inversion H; subst. exists rs. split; [reflexivity|].
  eapply mapM_decode_account_decoded; eauto.
Qed.

(** X7.  When the node's response carries an [error], whatever else it
    holds, [getMarketByAssetKeys] throws without decoding any account and
    without a further library call; when that error has no [message], the
    [Error] thrown has the empty message. *)
Theorem getMarketByAssetKeys_error_wins
  (conn baseMint quoteMint programId : value) (w w1 : W)
  (resp error : value) :
  getProgramAccounts env conn baseMint quoteMint programId w
  = (Normal resp, w1) ->
  GetV env resp "error" = Normal error ->
  ToBoolean error = true ->
  (exists e,
     getMarketByAssetKeys env conn baseMint quoteMint programId w
     = (Throw e, w1))
  /\ (GetV env error "message" = Normal VUndefined ->
      getMarketByAssetKeys env conn baseMint quoteMint programId w
      = (Throw (VError "Error" ""), w1)).
Proof.
  intros Hr He Ht. unfold getMarketByAssetKeys, bind, lift.
  rewrite Hr, He, Ht. split.
  - destruct (GetV env error "message") as [message|e];
      [|eexists; reflexivity].
    destruct (new_Error env message); eexists; reflexivity.
  - intros ->. reflexivity.
Qed.

(** X8.  When the node's response carries neither an error nor an array
    [result], [getMarketByAssetKeys] throws a TypeError. *)
Theorem getMarketByAssetKeys_without_result
  (conn baseMint quoteMint programId : value) (w w1 : W)
  (resp error result : value) :
  getProgramAccounts env conn baseMint quoteMint programId w
  = (Normal resp, w1) ->
  GetV env resp "error" = Normal error ->
  ToBoolean error = false ->
  GetV env resp "result" = Normal result ->
  is_array result = false ->
  exists msg,
    getMarketByAssetKeys env conn baseMint quoteMint programId w
    = (Throw (TypeError msg), w1).
Proof.
  intros Hr He Hf Hres Ha. unfold getMarketByAssetKeys, bind, lift.
  rewrite Hr, He, Hf, Hres.
  destruct result; try discriminate; eexists; reflexivity.
Qed.

(** X9.  [findByAssets] does not recover from an error of the node: it
    throws the [Error] carrying the node's message, and no market is
    loaded. *)
Theorem findByAssets_raises_node_message
  (conn baseMint quoteMint programKey : value) (w w1 : W)
  (resp error : value) (message : string) :
  getProgramAccounts env conn baseMint quoteMint programKey w
  = (Normal resp, w1) ->
  GetV env resp "error" = Normal error ->
  ToBoolean error = true ->
  GetV env error "message" = Normal (VStr message) ->
  findByAssets env conn baseMint quoteMint programKey w
  = (Throw (VError "Error" message), w1).
Proof.
  intros Hr He Ht Hm. unfold findByAssets, getMarketByAssetKeys, bind, lift.
  rewrite Hr, He, Ht, Hm. reflexivity.
Qed.
End ScanTheorems.

Lemma getMarketByAssetKeys_decodes_in_order_witness :
  exists entries,
    fst (getMarketByAssetKeys
           (mock_env (scan_finds [scanned_account "A"; scanned_account "B"]))
           the_connection (VRef 6) (VRef 7) the_program [])
    = Normal (VArr entries)
    /\ Forall2
         (decoded (mock_env (scan_finds [scanned_account "A"; scanned_account "B"])))
         [scanned_account "A"; scanned_account "B"] entries.
Proof.
  edestruct (getMarketByAssetKeys_decodes_in_order
               (mock_env (scan_finds [scanned_account "A"; scanned_account "B"]))
               the_connection (VRef 6) (VRef 7) the_program [])
    as (entries & Hr & F);
    [vm_compute; reflexivity | reflexivity | reflexivity | reflexivity
    | vm_compute; reflexivity | ].
  exists entries. split; [|exact F].
  inversion Hr. reflexivity.
Defined.

Lemma getMarketByAssetKeys_error_wins_witness :
  exists w',
    getMarketByAssetKeys
      (mock_env (node_answers
                   (VObj [("error", VStr "rate limited");
                          ("result", VArr [scanned_account "A"])])))
      the_connection (VRef 6) (VRef 7) the_program []
    = (Throw (VError "Error" ""), w').
Proof.
  eexists.
  eapply (getMarketByAssetKeys_error_wins
            (mock_env (node_answers
                         (VObj [("error", VStr "rate limited");
                                ("result", VArr [scanned_account "A"])])))
            the_connection (VRef 6) (VRef 7) the_program []);
    [vm_compute; reflexivity | reflexivity ..].
Defined.

Lemma getMarketByAssetKeys_without_result_witness :
  exists msg w',
    getMarketByAssetKeys (mock_env (node_answers (VObj [("jsonrpc", VStr "2.0")])))
      the_connection (VRef 6) (VRef 7) the_program []
    = (Throw (TypeError msg), w').
Proof.
  edestruct (getMarketByAssetKeys_without_result
               (mock_env (node_answers (VObj [("jsonrpc", VStr "2.0")])))
               the_connection (VRef 6) (VRef 7) the_program [])
    as (msg & H);
    [vm_compute; reflexivity | reflexivity .. | ].
  exists msg. eexists. exact H.
Defined.

Lemma findByAssets_raises_node_message_witness :
  exists w',
    findByAssets (mock_env failing_scan) the_connection (VRef 6) (VRef 7)
      the_program []
    = (Throw (VError "Error" "x"), w').
Proof.
  eexists.
  eapply (findByAssets_raises_node_message (mock_env failing_scan)
            the_connection (VRef 6) (VRef 7) the_program []);
    [vm_compute; reflexivity | reflexivity ..].
Defined.


Section RequestTheorems.
Context {W : Type} (env : Env W).

(** X10.  When the layout offsets and the three base-58 encodings are
    obtained, [getMarketByAssetKeys] sends the node one request,
    [getProgramAccounts], for the program in base 58, with the commitment
    of the connection, the base-64 encoding and two [memcmp] filters: the
    base mint at the offset of [baseMint], then the quote mint at the
    offset of [quoteMint]. *)
Theorem getProgramAccounts_request
  (conn baseMint quoteMint programId : value)
  (layout1 offset1 bytes1 layout2 offset2 bytes2 program commitment : value)
  (w w1 w2 w3 w4 w5 w6 w7 : W) :
  Market_getLayout env programId w = (Normal layout1, w1) ->
  is_nullish layout1 = false ->
  offsetOf env layout1 (VStr "baseMint") w1 = (Normal offset1, w2) ->
  is_nullish baseMint = false ->
  toBase58 env baseMint w2 = (Normal bytes1, w3) ->
  Market_getLayout env programId w3 = (Normal layout2, w4) ->
  is_nullish layout2 = false ->
  offsetOf env layout2 (VStr "quoteMint") w4 = (Normal offset2, w5) ->
  is_nullish quoteMint = false ->
  toBase58 env quoteMint w5 = (Normal bytes2, w6) ->
  is_nullish conn = false ->
  is_nullish programId = false ->
  toBase58 env programId w6 = (Normal program, w7) ->
  GetV env conn "commitment" = Normal commitment ->
  getProgramAccounts env conn baseMint quoteMint programId w
  = _rpcRequest env conn (VStr "getProgramAccounts")
      (VArr [program;
             scan_options commitment offset1 bytes1 offset2 bytes2]) w7.
Proof.
  intros G1 N1 O1 Nb B1 G2 N2 O2 Nq B2 Nc Np P C.
  unfold getProgramAccounts, memcmp_filter, invoke, bind, lift, ret.
  rewrite G1, N1, O1, Nb, B1, G2, N2, O2, Nq, B2, Nc, Np, P, C.
  reflexivity.
Qed.

(** X11.  With a base mint that is [undefined] or [null], [findByAssets]
    throws a TypeError once the offset of [baseMint] has been looked up:
    the node is not contacted and no market is loaded. *)
Theorem findByAssets_without_base_mint
  (conn baseMint quoteMint programKey layout offset : value) (w w1 w2 : W) :
  Market_getLayout env programKey w = (Normal layout, w1) ->
  is_nullish layout = false ->
  offsetOf env layout (VStr "baseMint") w1 = (Normal offset, w2) ->
  is_nullish baseMint = true ->
  exists msg,
    findByAssets env conn baseMint quoteMint programKey w
    = (Throw (TypeError msg), w2).
Proof.
  intros G N O Nb.
  unfold findByAssets, getMarketByAssetKeys, getProgramAccounts,
    memcmp_filter, invoke, bind, throw.
  rewrite G, N, O, Nb. eexists. reflexivity.
Qed.
End RequestTheorems.

Lemma getProgramAccounts_request_witness :
  getProgramAccounts (mock_env (scan_finds [])) the_connection (VRef 6)
    (VRef 7) the_program []
  = _rpcRequest (mock_env (scan_finds [])) the_connection
      (VStr "getProgramAccounts")
      (VArr [VStr "base58";
             scan_options VUndefined (VNum 5%float) (VStr "base58")
               (VNum 5%float) (VStr "base58")])
      [VArr [VStr "Market.getLayout"; the_program];
       VArr [VStr "offsetOf"; VRef 1; VStr "baseMint"];
       VArr [VStr "toBase58"; VRef 6];
       VArr [VStr "Market.getLayout"; the_program];
       VArr [VStr "offsetOf"; VRef 1; VStr "quoteMint"];
       VArr [VStr "toBase58"; VRef 7];
       VArr [VStr "toBase58"; the_program]].
Proof.
  eapply (getProgramAccounts_request (mock_env (scan_finds []))
            the_connection (VRef 6) (VRef 7) the_program);
    reflexivity.
Defined.

Lemma findByAssets_without_base_mint_witness :
  exists msg w',
    findByAssets (mock_env (scan_finds [scanned_account "A"])) the_connection
      VUndefined (VRef 7) the_program []
    = (Throw (TypeError msg), w').
Proof.
  edestruct (findByAssets_without_base_mint
               (mock_env (scan_finds [scanned_account "A"])) the_connection
               VUndefined (VRef 7) the_program (VRef 1) (VNum 5%float) [])
    as (msg & H);
    [reflexivity .. | ].
  exists msg. eexists. exact H.
Defined.

Section OrderEdgeTheorems.
Context {W : Type} (env : Env W).

(** X12.  On a client whose market is not resolved, [createPlaceOrderTx]
    throws whatever its argument is, and the transaction builder is not
    called. *)
Theorem createPlaceOrderTx_not_ready (this : SerumMarket) (arg : value)
  (w : W) :
  is_nullish (market this) = true ->
  exists e, createPlaceOrderTx env this arg w = (Throw e, w).
Proof.
  intros H. unfold createPlaceOrderTx, invoke, bind, lift, throw. rewrite H.
  repeat match goal with
         | |- context [match GetV ?e ?a ?k with _ => _ end] =>
             destruct (GetV e a k)
         end;
    eexists; reflexivity.
Qed.

(** X13.  The default [{}] of [opts] stands in for [undefined] only: with
    [opts: null], [createPlaceOrderTx] throws a TypeError and the builder
    is not called, also on a client with a resolved market. *)
Theorem createPlaceOrderTx_null_opts (this : SerumMarket)
  (props : list (string * value)) (w : W) :
  lookup "opts" props = VNull ->
  exists msg,
    createPlaceOrderTx env this (VObj props) w = (Throw (TypeError msg), w).
Proof.
  intros H. unfold createPlaceOrderTx, bind, lift. simpl. rewrite H.
  eexists. reflexivity.
Qed.

Lemma lookup_other (k k' : string) (v : value) (props : list (string * value)) :
  k <> k' -> lookup k ((k', v) :: props) = lookup k props.
Proof.
  intros H. simpl. destruct (String.eqb k k') eqn:E; [|reflexivity].
  apply String.eqb_eq in E. contradiction.
Qed.

(** X14.  [createPlaceOrderTx] reads eight properties off its argument
    and nothing else: a property of any other name changes neither what
    the builder receives nor the result. *)
Theorem createPlaceOrderTx_ignores_other_properties (this : SerumMarket)
  (k : string) (v : value) (props : list (string * value)) :
  ~ In k argument_fields ->
  createPlaceOrderTx env this (VObj ((k, v) :: props))
  = createPlaceOrderTx env this (VObj props).
Proof.
  intros H. unfold createPlaceOrderTx, GetV at 1 2 3 4 5 6 7 8.
  unfold GetV at 5 6 7 8 9 10 11 12.
  rewrite !lookup_other
    by (intros <-; apply H; unfold argument_fields; simpl; tauto).
  reflexivity.
Qed.
End OrderEdgeTheorems.

Lemma createPlaceOrderTx_not_ready_witness :
  exists e,
    createPlaceOrderTx (mock_env (live_market [] []))
      (new_SerumMarket the_connection (VRef 5) the_program)
      (VObj [("connection", the_connection); ("owner", VRef 40);
             ("payer", VRef 41); ("side", VStr "buy");
             ("price", VNum 10%float); ("size", VNum 1%float)]) []
    = (Throw e, []).
Proof.
  apply (createPlaceOrderTx_not_ready (mock_env (live_market [] []))
           (new_SerumMarket the_connection (VRef 5) the_program)).
  reflexivity.
Defined.

Lemma createPlaceOrderTx_null_opts_witness :
  exists msg,
    createPlaceOrderTx (mock_env (live_market [] [])) ready_client
      (VObj [("connection", the_connection); ("owner", VRef 40);
             ("payer", VRef 41); ("side", VStr "buy");
             ("price", VNum 10%float); ("size", VNum 1%float);
             ("opts", VNull)]) []
    = (Throw (TypeError msg), []).
Proof.
  apply (createPlaceOrderTx_null_opts (mock_env (live_market [] []))
           ready_client).
  reflexivity.
Defined.

Lemma createPlaceOrderTx_ignores_other_properties_witness :
  createPlaceOrderTx (mock_env (live_market [] [])) ready_client
    (VObj [("memo", VStr "rebalance"); ("connection", the_connection);
           ("owner", VRef 40); ("payer", VRef 41); ("side", VStr "sell");
           ("price", VNum 12%float); ("size", VNum 1%float)])
  = createPlaceOrderTx (mock_env (live_market [] [])) ready_client
      (VObj [("connection", the_connection);
             ("owner", VRef 40); ("payer", VRef 41); ("side", VStr "sell");
             ("price", VNum 12%float); ("size", VNum 1%float)]).
Proof.
  apply (createPlaceOrderTx_ignores_other_properties
           (mock_env (live_market [] [])) ready_client "memo").
  unfold argument_fields. simpl. intuition discriminate.
Defined.

Section LockedMarket.
Context {W : Type} (env : Env W).

Lemma SFsub_diag (prec emax : Z) (s : bool) (m : positive) (e : Z) :
  SFsub prec emax (S754_finite s m e) (S754_finite s m e) = S754_zero false.
Proof. simpl. rewrite Z.sub_diag. reflexivity. Qed.

Lemma midpoint_of_equal_sides (x : float) :
  finite_nonzero x -> ((x - x) / 2 + x = x)%float.
Proof.
  intros (s & m & e & H). apply Prim2SF_inj.
  rewrite add_spec, div_spec, sub_spec, H.
  unfold SF64sub. rewrite SFsub_diag.
  change (Prim2SF 2) with (S754_finite false 4503599627370496 (-51)).
  reflexivity.
Qed.

(** X15.  When the best bid and the best ask are the same finite,
    non-zero price, [getPrice] returns exactly that price: the midpoint
    formula loses nothing to rounding. *)
Theorem getPrice_locked_market (this : SerumMarket) (w w' : W) (x : float) :
  getBidAskSpread env this w
  = (Normal (VObj [("bid", VNum x); ("ask", VNum x)]), w') ->
  finite_nonzero x ->
  getPrice env this w = (Normal (VNum x), w').
Proof.
  intros H F.
  rewrite (getPrice_of_spread env this w w' (VNum x) (VNum x) H eq_refl eq_refl).
  simpl. rewrite (midpoint_of_equal_sides x F). reflexivity.
Qed.
End LockedMarket.

Lemma getPrice_locked_market_witness :
  exists w',
    getPrice (mock_env (live_market [level 12.5 3] [level 12.5 4])) ready_client []
    = (Normal (VNum 12.5%float), w').
Proof.
  eexists.
  eapply (getPrice_locked_market
            (mock_env (live_market [level 12.5 3] [level 12.5 4])) ready_client []).
  - vm_compute. reflexivity.
  - unfold finite_nonzero. eexists. eexists. eexists. vm_compute. reflexivity.
Defined.

Section ScriptTheorems.
Context {W : Type} (env : ScriptEnv W).

(** X16.  When the connection and the two keys are constructed, the
    market loads and both books load, the demo script logs one line: the
    label and what [getL2(1)] returned for the bids and for the asks, as
    returned, so an empty side is logged as an empty array. *)
Theorem testSerumOrderbook_logs_top_levels
  (conn programKey marketKey handle bidOrderbook askOrderbook
   bidLevels askLevels : value) (w w1 w2 w3 w4 w5 w6 w7 w8 : W) :
  new_Connection env (VStr "https://devnet.solana.com") w = (Normal conn, w1) ->
  new_PublicKey (lib env)
    (VStr "DESVgJVGajEgKGXhb6XmqDHGz3VjdgP7rEVESBgxmroY") w1
  = (Normal programKey, w2) ->
  new_PublicKey (lib env)
    (VStr "CDhPvJY41fchNH4G4dB4VrF6G8EcTZnSBDDKWP8NLgvQ") w2
  = (Normal marketKey, w3) ->
  Market_load (lib env) conn marketKey (VObj []) programKey w3
  = (Normal handle, w4) ->
  is_nullish handle = false ->
  loadBids (lib env) handle conn w4 = (Normal bidOrderbook, w5) ->
  loadAsks (lib env) handle conn w5 = (Normal askOrderbook, w6) ->
  is_nullish bidOrderbook = false ->
  getL2 (lib env) bidOrderbook (VNum 1%float) w6 = (Normal bidLevels, w7) ->
  is_nullish askOrderbook = false ->
  getL2 (lib env) askOrderbook (VNum 1%float) w7 = (Normal askLevels, w8) ->
  testSerumOrderbook env w
  = (Normal tt,
     console_log env [VStr "*** OrderBooks"; bidLevels; askLevels] w8).
Proof.
  intros C P1 P2 L Nh B A Nb Lb Na La.
  unfold testSerumOrderbook, initMarket, getMarket, invoke, bind, ret.
  rewrite C, P1, P2. simpl. rewrite L. simpl.
  rewrite Nh, B, A, Nb, Lb, Na, La. reflexivity.
Qed.

(** X17.  When the market cannot be loaded, the demo script fails with
    the value [Market.load] rejected with: no book is loaded and nothing
    is logged. *)
Theorem testSerumOrderbook_market_unavailable
  (conn programKey marketKey e : value) (w w1 w2 w3 w4 : W) :
  new_Connection env (VStr "https://devnet.solana.com") w = (Normal conn, w1) ->
  new_PublicKey (lib env)
    (VStr "DESVgJVGajEgKGXhb6XmqDHGz3VjdgP7rEVESBgxmroY") w1
  = (Normal programKey, w2) ->
  new_PublicKey (lib env)
    (VStr "CDhPvJY41fchNH4G4dB4VrF6G8EcTZnSBDDKWP8NLgvQ") w2
  = (Normal marketKey, w3) ->
  Market_load (lib env) conn marketKey (VObj []) programKey w3 = (Throw e, w4) ->
  testSerumOrderbook env w = (Throw e, w4).
Proof.
  intros C P1 P2 L.
  unfold testSerumOrderbook, initMarket, getMarket, bind.
  rewrite C, P1, P2. simpl. rewrite L. reflexivity.
Qed.
End ScriptTheorems.

Lemma testSerumOrderbook_logs_top_levels_witness :
  exists w',
    testSerumOrderbook (mock_script (live_market [] [level 12 4])) []
    = (Normal tt,
       console_log (mock_script (live_market [] [level 12 4]))
         [VStr "*** OrderBooks"; VArr []; VArr [level 12 4]] w').
Proof.
  eexists.
  eapply (testSerumOrderbook_logs_top_levels
            (mock_script (live_market [] [level 12 4]))
            the_connection
            (VObj [("PublicKey", VStr "DESVgJVGajEgKGXhb6XmqDHGz3VjdgP7rEVESBgxmroY")])
            (VObj [("PublicKey", VStr "CDhPvJY41fchNH4G4dB4VrF6G8EcTZnSBDDKWP8NLgvQ")])
            the_market the_bids the_asks (VArr []) (VArr [level 12 4]) []);
    vm_compute; reflexivity.
Defined.

Lemma testSerumOrderbook_market_unavailable_witness :
  exists w',
    testSerumOrderbook (mock_script market_unavailable) []
    = (Throw (VError "Error" "Address not owned by program"), w').
Proof.
  eexists.
  eapply (testSerumOrderbook_market_unavailable
            (mock_script market_unavailable) the_connection
            (VObj [("PublicKey", VStr "DESVgJVGajEgKGXhb6XmqDHGz3VjdgP7rEVESBgxmroY")])
            (VObj [("PublicKey", VStr "CDhPvJY41fchNH4G4dB4VrF6G8EcTZnSBDDKWP8NLgvQ")])
            _ []);
    vm_compute; reflexivity.
Defined.

(** X18.  Whatever [NODE_ENV] holds, the build watches for changes
    exactly when it is not a production build, and it is a production
    build only when [NODE_ENV] is the string [production]; an unset
    [NODE_ENV] gives a watched development build. *)
Theorem webpack_watch_iff_development (NODE_ENV : value) :
  (WebpackConfig.watch NODE_ENV = true
   <-> WebpackConfig.mode NODE_ENV = "development")
  /\ (WebpackConfig.mode NODE_ENV = "production"
      <-> NODE_ENV = VStr "production")
  /\ (WebpackConfig.mode NODE_ENV = "production"
      \/ WebpackConfig.mode NODE_ENV = "development").
Proof.
  unfold WebpackConfig.watch, WebpackConfig.mode, WebpackConfig.strictly_equals.
  destruct NODE_ENV as [| | | |s| | | |];
    try (repeat split; intros; try discriminate; auto; fail).
  destruct (String.eqb s "production") eqn:E; simpl.
  - apply String.eqb_eq in E. subst.
    repeat split; intros; try discriminate; auto.
  - apply String.eqb_neq in E.
    repeat split; intros; try discriminate; auto.
    exfalso. apply E. congruence.
Qed.
